(** * Notebooks of the cookbook: retrieval-augmented generation with a vector
      index, and structured JSON extraction with tool use.

    The notebooks are linear scripts that talk to three hosted services.  The
    services are modelled as oracles indexed by the number of requests made so
    far; every cell is a function that threads an explicit state (request
    counter, seconds slept, log of observable events) and returns an outcome
    that is a normal completion, a propagated Python exception, or an
    exhausted iteration budget for the loops that have no bound of their
    own: the retry loop of the upload, the wait for the index, and the
    dataset loop, whose file an evaluated line can rewind. *)

From Stdlib Require Import ZArith QArith Lia Ascii.
From stdpp Require Import base tactics option list strings gmap pretty.

Set Warnings "-register-all".

Open Scope nat_scope.

(** ** Python values and exceptions *)

Module Py.

(** Exceptions the cells can meet.  [KeyboardInterrupt] and [SystemExit]
    derive from [BaseException] only; a bare [except:] catches them too. *)
Inductive exn : Type :=
| RateLimitError
| ConnectionError
| KeyboardInterrupt
| SystemExit
| SyntaxError
| NameError (name : string)
| KeyError (key : string)
| TypeError
| JSONDecodeError
| IndexError
| AttributeError (name : string)
| FileNotFoundError (path : string)
| OtherError (name : string).

Inductive result (A : Type) : Type :=
| Ok (a : A)
| Raise (e : exn).
Arguments Ok {A} a.
Arguments Raise {A} e.

Definition is_ok {A} (r : result A) : bool :=
  match r with Ok _ => true | Raise _ => false end.

(** [l[i:j]] for non-negative bounds: out-of-range bounds are clamped. *)
Definition slice {A} (l : list A) (i j : nat) : list A :=
  take (j - i) (drop i l).

(** [range(i, j)] *)
Definition range (i j : nat) : list nat := seq i (j - i).

(** [range(start, stop, step)] for a positive step: the values
    [start + k * step] below [stop]. *)
Definition range_step (start stop step : nat) : list nat :=
  (λ k, start + k * step) <$> seq 0 ((stop - start + step - 1) / step).

(** [zip(a, b, c)]: stops at the shortest argument. *)
Fixpoint zip3 {A B C} (a : list A) (b : list B) (c : list C)
  : list (A * B * C) :=
  match a, b, c with
  | x :: a', y :: b', z :: c' => (x, y, z) :: zip3 a' b' c'
  | _, _, _ => []
  end.

(** [str(n)] / [f"{n}"] for a non-negative integer. *)
Definition str_of_nat (n : nat) : string := pretty n.

(** JSON-like values (what [json.loads] returns, what a tool input is). *)
Inductive value : Type :=
| VNone
| VBool (b : bool)
| VNum (q : Q)
| VStr (s : string)
| VList (l : list value)
| VDict (kvs : list (string * value)).

(** Truth value testing, as [if v:] does. *)
Definition truthy (v : value) : bool :=
  match v with
  | VNone => false
  | VBool b => b
  | VNum q => negb (Qeq_bool q 0)
  | VStr s => negb (String.eqb s "")
  | VList l => match l with [] => false | _ :: _ => true end
  | VDict kvs => match kvs with [] => false | _ :: _ => true end
  end.

(** [d[k]] on a dict literal or parsed object: the last binding of a
    repeated key wins, so bindings are searched from the right. *)
Fixpoint dict_get (kvs : list (string * value)) (k : string) : option value :=
  match kvs with
  | [] => None
  | (k', v) :: rest =>
      match dict_get rest k with
      | Some v' => Some v'
      | None => if String.eqb k' k then Some v else None
      end
  end.

Definition dict_keys (kvs : list (string * value)) : list string := kvs.*1.

(** [v[k]] for a string key. *)
Definition getitem (v : value) (k : string) : result value :=
  match v with
  | VDict kvs =>
      match dict_get kvs k with
      | Some x => Ok x
      | None => Raise (KeyError k)
      end
  | _ => Raise TypeError
  end.

(** The newline and the double quote, for the f-strings of the notebooks. *)
Definition nl : string := String "010"%char EmptyString.
Definition dq : string := String "034"%char EmptyString.

End Py.
Import Py.

(** ** The hosted services *)

(** A fixed-dimension float vector. *)
Abbreviation vector := (list Q).

(** What [vo.embed] returns. *)
Record EmbeddingsObject := { embeddings : list vector }.

(** A metadata dictionary of the index: string keys, text values. *)
Abbreviation metadata := (gmap string string).

(** One (id, vector, metadata) triple of an upsert. *)
Abbreviation triple := (string * vector * metadata)%type.

(** One match of a similarity query. *)
Record ScoredVector := {
  match_id : string;
  match_score : Q;
  match_metadata : option metadata   (* absent when the vector has none *)
}.

Record QueryResponse := { matches : list ScoredVector }.

(** A content block of a message of the generation service. The input of a
    tool invocation is a JSON object. *)
Inductive ContentBlock : Type :=
| TextBlock (text : string)
| ToolUseBlock (id name : string) (input : list (string * value)).

Record Message := { content : list ContentBlock }.

Record MessagesRequest := {
  req_model : string;
  req_max_tokens : nat;
  req_tools : list value;
  req_tool_choice : option value;
  req_messages : list value
}.

(** The three services.  The first argument of each is the number of requests
    the notebook has issued before this one, so that the same request can be
    answered differently at different times. *)
Record services := {
  vo_embed : nat → list string → string → string → result EmbeddingsObject;
  index_upsert : nat → list triple → result unit;
  index_query : nat → list vector → nat → bool → result QueryResponse;
  completions_create : nat → string → string → nat → result string;
  messages_create : nat → MessagesRequest → result Message
}.

(** The interpreter's surroundings: the file system, the web, and library
    functions whose code is not part of the notebooks. *)
Record host := {
  fs_read : string → result (list Byte.byte);      (* open(path, 'rb').read() *)
  py_str : value → string;                         (* str(v), as print shows it *)
  json_loads : string → result value;
  json_dumps : value → nat → string;               (* json.dumps(v, indent=n) *)
  b64encode : list Byte.byte → string;
  fetch_paragraphs : string → result (list string) (* the <p> texts of a page *)
}.

(** The file the dataset loop iterates over. *)
Inductive file_state : Type :=
| FileOpen (rest : list string)   (* the lines not read yet *)
| FileClosed.

(** What one [eval(line)] does.  The expression is evaluated in the
    namespace of the cell, so besides returning a value or raising it can
    change the list that [data] names, bind the name [data] to something
    else or unbind it, and read from, rewind or close the file. *)
Record eval_effect := {
  eval_result : result value;
  list_after : list value;      (* the list [data] named before, afterwards *)
  (* the binding of [data] afterwards, if changed: [Some None] is unbound *)
  data_rebound : option (option value);
  file_after : file_state
}.

(** A data frame, as far as the cell looks at it. *)
Record dataframe := {
  head_shown : string;          (* what display(df.head()) shows *)
  df_len : nat                  (* len(df) *)
}.

(** The surroundings of the dataset cell. *)
Record dataset_host := {
  (* !wget ...; open(path, 'r'): the lines of the file (taken to decode), or
     what open raises *)
  wget_open : string → result (list string);
  (* eval(line), given the contents of the list [data] names and the file *)
  eval_line : string → list value → file_state → eval_effect;
  pd_DataFrame : value → result dataframe
}.

(** Observable events, in program order. *)
Inductive event : Type :=
| EmbedRequest (texts : list string) (model input_type : string)
               (r : result EmbeddingsObject)
| Sleep (seconds : nat)
| UpsertRequest (vectors : list triple) (r : result unit)
| QueryRequest (vec : list vector) (top_k : nat) (include_metadata : bool)
               (r : result QueryResponse)
| CompletionRequest (model prompt : string) (max_tokens_to_sample : nat)
                    (r : result string)
| MessagesCall (req : MessagesRequest) (r : result Message)
| Print (text : string).

Record state := {
  requests : nat;      (* requests sent so far *)
  slept : nat;         (* seconds spent in sleep() *)
  log : list event     (* events, oldest first *)
}.

Definition initial : state := {| requests := 0; slept := 0; log := [] |}.

Definition emit (ev : event) (st : state) : state :=
  {| requests := requests st; slept := slept st; log := log st ++ [ev] |}.

Definition sent (ev : event) (st : state) : state :=
  {| requests := S (requests st); slept := slept st; log := log st ++ [ev] |}.

Definition sleep (seconds : nat) (st : state) : state :=
  {| requests := requests st; slept := slept st + seconds;
     log := log st ++ [Sleep seconds] |}.

(** Outcome of running a cell from a state. *)
Inductive outcome (A : Type) : Type :=
| Done (a : A) (st : state)
| Raised (e : exn) (st : state)
| OutOfFuel.
Arguments Done {A} a st.
Arguments Raised {A} e st.
Arguments OutOfFuel {A}.

(** [for x in xs: body], threading the loop-carried variables [a]. *)
Fixpoint for_each {X A} (body : X → A → state → outcome A)
    (xs : list X) (a : A) (st : state) : outcome A :=
  match xs with
  | [] => Done a st
  | x :: xs' =>
      match body x a st with
      | Done a' st' => for_each body xs' a' st'
      | Raised e st' => Raised e st'
      | OutOfFuel => OutOfFuel
      end
  end.

(** ** Uploading data to the index *)

Module Upload.

Definition batch_size : nat := 100.

(** Variables of the retry loop. [res] is unbound ([None]) until the first
    successful call and otherwise keeps its last value. *)
Record retry_vars := { done : bool; res : option EmbeddingsObject }.

(** One pass through the body of [while not done]. *)
Definition retry_body (svc : services) (descriptions_batch : list string)
    (v : retry_vars) (st : state) : retry_vars * state :=
  match vo_embed svc (requests st) descriptions_batch "voyage-2" "document" with
  | Ok r =>
      ({| done := true; res := Some r |},
       sent (EmbedRequest descriptions_batch "voyage-2" "document" (Ok r)) st)
  | Raise e =>
      (v, sleep 5
            (sent (EmbedRequest descriptions_batch "voyage-2" "document"
                     (Raise e)) st))
  end.

(** [while not done: ...] with an iteration budget; [None] when the budget
    runs out before [done] is set. *)
Fixpoint retry_loop (fuel : nat) (svc : services)
    (descriptions_batch : list string) (v : retry_vars) (st : state)
  : option (retry_vars * state) :=
  if done v then Some (v, st)
  else match fuel with
       | 0 => None
       | S fuel' =>
           let '(v', st') := retry_body svc descriptions_batch v st in
           retry_loop fuel' svc descriptions_batch v' st'
       end.

Definition id_of (idx : nat) : string := "description_" +:+ str_of_nat idx.

Definition i_end_of (descriptions : list string) (i : nat) : nat :=
  min (length descriptions) (i + batch_size).

Definition descriptions_batch_of (descriptions : list string) (i : nat)
  : list string :=
  slice descriptions i (i_end_of descriptions i).

Definition ids_batch_of (descriptions : list string) (i : nat) : list string :=
  id_of <$> range i (i_end_of descriptions i).

Definition metadata_batch_of (descriptions : list string) (i : nat)
  : list metadata :=
  (λ description, {[ "description" := description ]})
    <$> descriptions_batch_of descriptions i.

Definition to_upsert_of (descriptions : list string) (i : nat)
    (r : EmbeddingsObject) : list triple :=
  let embeds := (λ record, record) <$> embeddings r in
  zip3 (ids_batch_of descriptions i) embeds (metadata_batch_of descriptions i).

(** Body of [for i in range(0, len(descriptions), batch_size)].  The
    loop-carried variable is [res], which survives from one batch to the
    next. *)
Definition upload_batch (fuel : nat) (svc : services)
    (descriptions : list string) (i : nat)
    (res0 : option EmbeddingsObject) (st : state)
  : outcome (option EmbeddingsObject) :=
  match retry_loop fuel svc (descriptions_batch_of descriptions i)
          {| done := false; res := res0 |} st with
  | None => OutOfFuel
  | Some (v, st1) =>
      match res v with
      | None => Raised (NameError "res") st1
      | Some r =>
          let to_upsert := to_upsert_of descriptions i r in
          match index_upsert svc (requests st1) to_upsert with
          | Ok _ => Done (Some r) (sent (UpsertRequest to_upsert (Ok ())) st1)
          | Raise e => Raised e (sent (UpsertRequest to_upsert (Raise e)) st1)
          end
      end
  end.

Definition batch_starts (descriptions : list string) : list nat :=
  range_step 0 (length descriptions) batch_size.

Definition upload_loop (fuel : nat) (svc : services)
    (descriptions : list string) (st : state)
  : outcome (option EmbeddingsObject) :=
  for_each (upload_batch fuel svc descriptions)
    (batch_starts descriptions) None st.

End Upload.

(** ** The retrieval notebook: dataset, keywords, search, prompts *)

Module Rag.

(** The variables of the dataset cell that [eval(line)] can reach; [data]
    is [None] when the name is unbound. *)
Record cell_vars := { data : option value; file : file_state }.

(** [try: data.append(eval(line)) except: pass].  The method [data.append]
    is looked up before the argument is evaluated: when [data] is unbound or
    not a list the lookup raises, which is caught, and [eval] is not
    reached; when the evaluation has rebound [data], the value is appended
    to the old list, which nothing names any more. *)
Definition load_line (k : dataset_host) (line : string) (vars : cell_vars)
  : cell_vars :=
  match data vars with
  | Some (VList l) =>
      let eff := eval_line k line l (file vars) in
      {| data :=
           match data_rebound eff with
           | Some d => d
           | None =>
               match eval_result eff with
               | Ok v => Some (VList (list_after eff ++ [v]))
               | Raise _ => Some (VList (list_after eff))
               end
           end;
         file := file_after eff |}
  | _ => vars
  end.

(** [for line in file: ...], with an iteration budget: an evaluated line
    can rewind the file.  Reading from a closed file raises outside the
    [try]. *)
Fixpoint read_lines (fuel : nat) (k : dataset_host) (vars : cell_vars)
    (st : state) : outcome cell_vars :=
  match fuel with
  | 0 => OutOfFuel
  | S fuel' =>
      match file vars with
      | FileClosed => Raised (OtherError "ValueError") st
      | FileOpen [] => Done vars st
      | FileOpen (line :: rest) =>
          read_lines fuel' k
            (load_line k line {| data := data vars; file := FileOpen rest |}) st
      end
  end.

(** The dataset cell: download and [open] are outside the [try]; after the
    loop come [df = pd.DataFrame(data)], [display(df.head())] and [len(df)],
    the value of the cell. *)
Definition load_dataset (fuel : nat) (k : dataset_host) (st : state)
  : outcome (value * nat) :=
  match wget_open k "amazon-products.jsonl" with
  | Raise e => Raised e st
  | Ok lines =>
      match read_lines fuel k
              {| data := Some (VList []); file := FileOpen lines |} st with
      | Raised e st1 => Raised e st1
      | OutOfFuel => OutOfFuel
      | Done vars st1 =>
          match data vars with
          | None => Raised (NameError "data") st1
          | Some d =>
              match pd_DataFrame k d with
              | Raise e => Raised e st1
              | Ok df => Done (d, df_len df) (emit (Print (head_shown df)) st1)
              end
          end
      end
  end.

Definition get_completion (svc : services) (prompt : string) (st : state)
  : outcome string :=
  match completions_create svc (requests st) "claude-2.1" prompt 1024 with
  | Ok completion =>
      Done completion (sent (CompletionRequest "claude-2.1" prompt 1024
                               (Ok completion)) st)
  | Raise e =>
      Raised e (sent (CompletionRequest "claude-2.1" prompt 1024 (Raise e)) st)
  end.

Definition create_keyword_prompt (question : string) : string :=
  nl +:+ nl +:+ "Human: Given a question, generate a list of 5 very diverse search keywords that can be used to search for products on Amazon."
  +:+ nl +:+ nl +:+ "The question is: " +:+ question
  +:+ nl +:+ nl +:+ "Output your keywords as a JSON that has one property "
  +:+ dq +:+ "keywords" +:+ dq
  +:+ " that is a list of strings. Only output valid JSON."
  +:+ nl +:+ nl +:+ "Assistant:{".

(** The two keyword cells: complete, print, parse, select ['keywords']. *)
Definition extract_keywords (svc : services) (h : host)
    (USER_QUESTION : string) (st : state) : outcome value :=
  match get_completion svc (create_keyword_prompt USER_QUESTION) st with
  | Raised e st1 => Raised e st1
  | OutOfFuel => OutOfFuel
  | Done completion st1 =>
      let keyword_json := "{" +:+ completion in
      let st2 := emit (Print keyword_json) st1 in
      match json_loads h keyword_json with
      | Raise e => Raised e st2
      | Ok data =>
          match getitem data "keywords" with
          | Raise e => Raised e st2
          | Ok keywords_list => Done keywords_list (emit (Print (py_str h keywords_list)) st2)
          end
      end
  end.





Definition format_item (i : nat) (r : string) : string :=
  "<item index=" +:+ dq +:+ str_of_nat (i + 1) +:+ dq +:+ ">" +:+ nl
  +:+ "<page_content>" +:+ nl +:+ r +:+ nl +:+ "</page_content>" +:+ nl
  +:+ "</item>".

Definition format_results (extracted : list string) : string :=
  let result := String.concat nl (imap format_item extracted) in
  nl +:+ "<search_results>" +:+ nl +:+ result +:+ nl +:+ "</search_results>".

Definition create_answer_prompt (results_list : list string)
    (question : string) : string :=
  nl +:+ nl +:+ "Human: " +:+ format_results results_list
  +:+ " Using the search results provided within the <search_results></search_results> tags, please answer the following question <question>"
  +:+ question
  +:+ "</question>. Do not reference the search results in your answer."
  +:+ nl +:+ nl +:+ "Assistant:".

End Rag.

(** ** The PDF notebook *)

Module Pdf.

Definition MODEL_NAME : string := "claude-3-5-sonnet-20241022".

Definition file_name : string :=
  "../multimodal/documents/constitutional-ai-paper.pdf".

(** The cell that reads the PDF and encodes it; [open] is not guarded. *)
Definition read_pdf (h : host) (st : state) : outcome string :=
  match fs_read h file_name with
  | Raise e => Raised e st
  | Ok binary_data => Done (b64encode h binary_data) st
  end.

(** [client.messages.create(...).content[0].text] *)
Definition get_completion (svc : services) (messages : list value)
    (st : state) : outcome string :=
  let req := {| req_model := MODEL_NAME; req_max_tokens := 2048;
                req_tools := []; req_tool_choice := None;
                req_messages := messages |} in
  match messages_create svc (requests st) req with
  | Raise e => Raised e (sent (MessagesCall req (Raise e)) st)
  | Ok response =>
      let st1 := sent (MessagesCall req (Ok response)) st in
      match content response with
      | [] => Raised IndexError st1
      | TextBlock text :: _ => Done text st1
      | ToolUseBlock _ _ _ :: _ => Raised (AttributeError "text") st1
      end
  end.

End Pdf.

(** ** The functions the notebooks define, as one table *)

Inductive fn : Type :=
| fn_get_completion
| fn_create_keyword_prompt
| fn_format_results
| fn_create_answer_prompt
| fn_pdf_get_completion.

(** The explicit parameters of each function.  The [client] argument of
    the PDF notebook's [get_completion] is the handle of the message
    service, here the world the call is made in. *)
Definition params (f : fn) : Type :=
  match f with
  | fn_get_completion => string
  | fn_create_keyword_prompt => string
  | fn_format_results => list string
  | fn_create_answer_prompt => (list string * string)%type
  | fn_pdf_get_completion => list value
  end.

(** A call of a notebook function in a given world and state. *)
Definition call (f : fn) (svc : services) (st : state)
  : params f → outcome string :=
  match f with
  | fn_get_completion => λ prompt, Rag.get_completion svc prompt st
  | fn_create_keyword_prompt => λ question,
      Done (Rag.create_keyword_prompt question) st
  | fn_format_results => λ extracted, Done (Rag.format_results extracted) st
  | fn_create_answer_prompt => λ '(results_list, question),
      Done (Rag.create_answer_prompt results_list question) st
  | fn_pdf_get_completion => λ messages, Pdf.get_completion svc messages st
  end.

(** The value a call returns, when it returns. *)
Definition returned {A} (o : outcome A) : option A :=
  match o with
  | Done a _ => Some a
  | _ => None
  end.

(** The output of [f] is not determined by its explicit inputs: the same
    call from the same state returns in two worlds, with different
    values. *)
Definition service_dependent (f : fn) : Prop :=
  ∃ (x : params f) (svc1 svc2 : services) (st : state) (a1 a2 : string),
    returned (call f svc1 st x) = Some a1
    ∧ returned (call f svc2 st x) = Some a2
    ∧ a1 ≠ a2.

(** ** The structured-JSON notebook *)

Module ToolUse.

Definition MODEL_NAME : string := "claude-3-haiku-20240307".

(** Schema fragments, written as the dict literals of the cells. *)
Definition typed (ty description : string) : value :=
  VDict [("type", VStr ty); ("description", VStr description)].

Definition strs (l : list string) : value := VList (VStr <$> l).

Definition print_summary_tool : value :=
  VDict [
    ("name", VStr "print_summary");
    ("description", VStr "Prints a summary of the article.");
    ("input_schema", VDict [
      ("type", VStr "object");
      ("properties", VDict [
        ("author", typed "string" "Name of the article author");
        ("topics", VDict [
          ("type", VStr "array");
          ("items", VDict [("type", VStr "string")]);
          ("description",
           VStr ("Array of topics, e.g. [" +:+ dq +:+ "tech" +:+ dq +:+ ", "
                 +:+ dq +:+ "politics" +:+ dq
                 +:+ "]. Should be as specific as possible, and can overlap."))]);
        ("summary",
         typed "string" "Summary of the article. One or two paragraphs max.");
        ("coherence",
         typed "integer"
           "Coherence of the article's key points, 0-100 (inclusive)");
        ("persuasion",
         typed "number" "Article's persuasion score, 0.0-1.0 (inclusive)")]);
      ("required",
       strs ["author"; "topics"; "summary"; "coherence"; "persuasion";
             "counterpoint"])])].

Definition print_entities_tool : value :=
  VDict [
    ("name", VStr "print_entities");
    ("description", VStr "Prints extract named entities.");
    ("input_schema", VDict [
      ("type", VStr "object");
      ("properties", VDict [
        ("entities", VDict [
          ("type", VStr "array");
          ("items", VDict [
            ("type", VStr "object");
            ("properties", VDict [
              ("name", typed "string" "The extracted entity name.");
              ("type",
               typed "string"
                 "The entity type (e.g., PERSON, ORGANIZATION, LOCATION).");
              ("context",
               typed "string"
                 "The context in which the entity appears in the text.")]);
            ("required", strs ["name"; "type"; "context"])])])]);
      ("required", strs ["entities"])])].

Definition print_sentiment_scores_tool : value :=
  VDict [
    ("name", VStr "print_sentiment_scores");
    ("description", VStr "Prints the sentiment scores of a given text.");
    ("input_schema", VDict [
      ("type", VStr "object");
      ("properties", VDict [
        ("positive_score",
         typed "number"
           "The positive sentiment score, ranging from 0.0 to 1.0.");
        ("negative_score",
         typed "number"
           "The negative sentiment score, ranging from 0.0 to 1.0.");
        ("neutral_score",
         typed "number"
           "The neutral sentiment score, ranging from 0.0 to 1.0.")]);
      ("required", strs ["positive_score"; "negative_score"; "neutral_score"])])].

Definition print_classification_tool : value :=
  VDict [
    ("name", VStr "print_classification");
    ("description", VStr "Prints the classification results.");
    ("input_schema", VDict [
      ("type", VStr "object");
      ("properties", VDict [
        ("categories", VDict [
          ("type", VStr "array");
          ("items", VDict [
            ("type", VStr "object");
            ("properties", VDict [
              ("name", typed "string" "The category name.");
              ("score",
               typed "number"
                 "The classification score for the category, ranging from 0.0 to 1.0.")]);
            ("required", strs ["name"; "score"])])])]);
      ("required", strs ["categories"])])].

Definition print_all_characteristics_tool : value :=
  VDict [
    ("name", VStr "print_all_characteristics");
    ("description", VStr "Prints all characteristics which are provided.");
    ("input_schema", VDict [
      ("type", VStr "object");
      ("additionalProperties", VBool true)])].

(** The five tools, in notebook order. *)
Definition all_tools : list value :=
  [print_summary_tool; print_entities_tool; print_sentiment_scores_tool;
   print_classification_tool; print_all_characteristics_tool].

(** *** Reading a schema *)

Definition input_schema (tool : value) : list (string * value) :=
  match tool with
  | VDict kvs =>
      match dict_get kvs "input_schema" with
      | Some (VDict schema) => schema
      | _ => []
      end
  | _ => []
  end.

(** The names in the [required] array of an object schema (none if absent). *)
Definition required_of (schema : list (string * value)) : list string :=
  match dict_get schema "required" with
  | Some (VList l) =>
      omap (λ v, match v with VStr s => Some s | _ => None end) l
  | _ => []
  end.

(** The keys of the [properties] object of an object schema (none if absent). *)
Definition properties_of (schema : list (string * value)) : list string :=
  match dict_get schema "properties" with
  | Some (VDict props) => dict_keys props
  | _ => []
  end.

(** Every required name is a declared property. *)
Definition required_declared (schema : list (string * value)) : bool :=
  forallb (λ k, bool_decide (k ∈ properties_of schema)) (required_of schema).

(** *** Requests *)

Definition user_message (query : string) : list value :=
  [VDict [("role", VStr "user"); ("content", VStr query)]].

Definition request (tools : list value) (tool_choice : option value)
    (query : string) : MessagesRequest :=
  {| req_model := MODEL_NAME; req_max_tokens := 4096; req_tools := tools;
     req_tool_choice := tool_choice; req_messages := user_message query |}.

Definition create (svc : services) (req : MessagesRequest) (st : state)
  : outcome Message :=
  match messages_create svc (requests st) req with
  | Ok response => Done response (sent (MessagesCall req (Ok response)) st)
  | Raise e => Raised e (sent (MessagesCall req (Raise e)) st)
  end.

(** *** The extraction loop *)

(** [content.type] *)
Definition block_type (c : ContentBlock) : string :=
  match c with
  | TextBlock _ => "text"
  | ToolUseBlock _ _ _ => "tool_use"
  end.

(** [content.name]: a text block has no such attribute. *)
Definition block_name (c : ContentBlock) : result string :=
  match c with
  | TextBlock _ => Raise (AttributeError "name")
  | ToolUseBlock _ name _ => Ok name
  end.

(** [content.input] *)
Definition block_input (c : ContentBlock) : result value :=
  match c with
  | TextBlock _ => Raise (AttributeError "input")
  | ToolUseBlock _ _ input => Ok (VDict input)
  end.

(** [for content in blocks: if content.type == "tool_use" and content.name ==
    tool_name: var = content.input; break]; [and] evaluates its right operand
    only when the left one holds. *)
Fixpoint extract (tool_name : string) (blocks : list ContentBlock)
    (var : value) : result value :=
  match blocks with
  | [] => Ok var
  | c :: rest =>
      if String.eqb (block_type c) "tool_use" then
        match block_name c with
        | Raise e => Raise e
        | Ok name =>
            if String.eqb name tool_name then block_input c
            else extract tool_name rest var
        end
      else extract tool_name rest var
  end.

(** The values of the result variables of the five cells, in a kernel where
    all of them are bound; a cell that has found nothing leaves [None].
    Names that are still unbound are the matter of [kernel] below. *)
Record notebook := {
  json_summary : value;
  json_entities : value;
  json_sentiment : value;
  json_classification : value;
  tool_output : value
}.

(** The variables once every cell has run on an answer without a tool
    invocation. *)
Definition nothing_found : notebook :=
  {| json_summary := VNone; json_entities := VNone; json_sentiment := VNone;
     json_classification := VNone; tool_output := VNone |}.

(** *** What each cell does with a response *)

Definition handle1 (h : host) (response : Message) (nb : notebook)
    (st : state) : outcome notebook :=
  match extract "print_summary" (content response) VNone with
  | Raise e => Raised e st
  | Ok v =>
      let nb' := {| json_summary := v; json_entities := json_entities nb;
                    json_sentiment := json_sentiment nb;
                    json_classification := json_classification nb;
                    tool_output := tool_output nb |} in
      if truthy (json_summary nb') then
        Done nb' (emit (Print (json_dumps h (json_summary nb') 2))
                    (emit (Print "JSON Summary:") st))
      else Done nb' (emit (Print "No JSON summary found in the response.") st)
  end.

Definition handle2 (h : host) (response : Message) (nb : notebook)
    (st : state) : outcome notebook :=
  match extract "print_entities" (content response) VNone with
  | Raise e => Raised e st
  | Ok v =>
      let nb' := {| json_summary := json_summary nb; json_entities := v;
                    json_sentiment := json_sentiment nb;
                    json_classification := json_classification nb;
                    tool_output := tool_output nb |} in
      if truthy (json_entities nb') then
        Done nb' (emit (Print (py_str h (json_entities nb')))
                    (emit (Print "Extracted Entities (JSON):") st))
      else Done nb' (emit (Print "No entities found in the response.") st)
  end.

Definition handle3 (h : host) (response : Message) (nb : notebook)
    (st : state) : outcome notebook :=
  match extract "print_sentiment_scores" (content response) VNone with
  | Raise e => Raised e st
  | Ok v =>
      let nb' := {| json_summary := json_summary nb;
                    json_entities := json_entities nb; json_sentiment := v;
                    json_classification := json_classification nb;
                    tool_output := tool_output nb |} in
      if truthy (json_sentiment nb') then
        Done nb' (emit (Print (json_dumps h (json_sentiment nb') 2))
                    (emit (Print "Sentiment Analysis (JSON):") st))
      else
        Done nb' (emit (Print "No sentiment analysis found in the response.") st)
  end.

Definition handle4 (h : host) (response : Message) (nb : notebook)
    (st : state) : outcome notebook :=
  match extract "print_classification" (content response) VNone with
  | Raise e => Raised e st
  | Ok v =>
      let nb' := {| json_summary := json_summary nb;
                    json_entities := json_entities nb;
                    json_sentiment := json_sentiment nb;
                    json_classification := v;
                    tool_output := tool_output nb |} in
      if truthy (json_classification nb') then
        Done nb' (emit (Print (json_dumps h (json_classification nb') 2))
                    (emit (Print "Text Classification (JSON):") st))
      else
        Done nb' (emit (Print "No text classification found in the response.") st)
  end.

(** The last cell prints [json_classification], the variable of the cell
    before it. *)
Definition handle5 (h : host) (response : Message) (nb : notebook)
    (st : state) : outcome notebook :=
  match extract "print_all_characteristics" (content response) VNone with
  | Raise e => Raised e st
  | Ok v =>
      let nb' := {| json_summary := json_summary nb;
                    json_entities := json_entities nb;
                    json_sentiment := json_sentiment nb;
                    json_classification := json_classification nb;
                    tool_output := v |} in
      if truthy (tool_output nb') then
        Done nb' (emit (Print (json_dumps h (json_classification nb') 2))
                    (emit (Print "Characteristics (JSON):") st))
      else Done nb' (emit (Print "Something went wrong.") st)
  end.

(** *** The cells: request, then handling of the response *)

Definition url : string := "https://www.anthropic.com/news/third-party-testing".

Definition ask (svc : services) (h : host) (req : MessagesRequest)
    (handle : host → Message → notebook → state → outcome notebook)
    (nb : notebook) (st : state) : outcome notebook :=
  match create svc req st with
  | Done response st1 => handle h response nb st1
  | Raised e st1 => Raised e st1
  | OutOfFuel => OutOfFuel
  end.

(** The request of each cell: one tool, the prompt of the cell. *)
Definition request1 (paragraphs : list string) : MessagesRequest :=
  let article := String.concat " " paragraphs in
  let query := nl +:+ "<article>" +:+ nl +:+ article +:+ nl +:+ "</article>"
               +:+ nl +:+ nl +:+ "Use the `print_summary` tool." +:+ nl in
  request [print_summary_tool] None query.

Definition request2 : MessagesRequest :=
  let text := "John works at Google in New York. He met with Sarah, the CEO of Acme Inc., last week in San Francisco." in
  let query := nl +:+ "<document>" +:+ nl +:+ text +:+ nl +:+ "</document>"
               +:+ nl +:+ nl +:+ "Use the print_entities tool." +:+ nl in
  request [print_entities_tool] None query.

Definition request3 : MessagesRequest :=
  let text := "The product was okay, but the customer service was terrible. I probably won't buy from them again." in
  let query := nl +:+ "<text>" +:+ nl +:+ text +:+ nl +:+ "</text>"
               +:+ nl +:+ nl +:+ "Use the print_sentiment_scores tool." +:+ nl in
  request [print_sentiment_scores_tool] None query.

Definition request4 : MessagesRequest :=
  let text := "The new quantum computing breakthrough could revolutionize the tech industry." in
  let query := nl +:+ "<document>" +:+ nl +:+ text +:+ nl +:+ "</document>"
               +:+ nl +:+ nl
               +:+ "Use the print_classification tool. The categories can be Politics, Sports, Technology, Entertainment, Business."
               +:+ nl in
  request [print_classification_tool] None query.

Definition request5 : MessagesRequest :=
  let query :=
    "Given a description of a character, your task is to extract all the characteristics of the character and print them using the print_all_characteristics tool."
    +:+ nl +:+ nl
    +:+ "The print_all_characteristics tool takes an arbitrary number of inputs where the key is the characteristic name and the value is the characteristic value (age: 28 or eye_color: green)."
    +:+ nl +:+ nl +:+ "<description>" +:+ nl
    +:+ "The man is tall, with a beard and a scar on his left cheek. He has a deep voice and wears a black leather jacket."
    +:+ nl +:+ "</description>" +:+ nl +:+ nl
    +:+ "Now use the print_all_characteristics tool." in
  request [print_all_characteristics_tool]
    (Some (VDict [("type", VStr "tool");
                  ("name", VStr "print_all_characteristics")]))
    query.

Definition cell1 (svc : services) (h : host) (nb : notebook) (st : state)
  : outcome notebook :=
  match fetch_paragraphs h url with
  | Raise e => Raised e st
  | Ok paragraphs => ask svc h (request1 paragraphs) handle1 nb st
  end.

Definition cell2 (svc : services) (h : host) (nb : notebook) (st : state)
  : outcome notebook :=
  ask svc h request2 handle2 nb st.

Definition cell3 (svc : services) (h : host) (nb : notebook) (st : state)
  : outcome notebook :=
  ask svc h request3 handle3 nb st.

Definition cell4 (svc : services) (h : host) (nb : notebook) (st : state)
  : outcome notebook :=
  ask svc h request4 handle4 nb st.

Definition cell5 (svc : services) (h : host) (nb : notebook) (st : state)
  : outcome notebook :=
  ask svc h request5 handle5 nb st.

(** *** The five examples side by side *)

Inductive example : Type := Ex1 | Ex2 | Ex3 | Ex4 | Ex5.

Definition tool_name_of (ex : example) : string :=
  match ex with
  | Ex1 => "print_summary"
  | Ex2 => "print_entities"
  | Ex3 => "print_sentiment_scores"
  | Ex4 => "print_classification"
  | Ex5 => "print_all_characteristics"
  end.

Definition fallback_of (ex : example) : string :=
  match ex with
  | Ex1 => "No JSON summary found in the response."
  | Ex2 => "No entities found in the response."
  | Ex3 => "No sentiment analysis found in the response."
  | Ex4 => "No text classification found in the response."
  | Ex5 => "Something went wrong."
  end.

Definition handle_of (ex : example)
  : host → Message → notebook → state → outcome notebook :=
  match ex with
  | Ex1 => handle1 | Ex2 => handle2 | Ex3 => handle3
  | Ex4 => handle4 | Ex5 => handle5
  end.

(** The result variable of an example. *)
Definition result_of (ex : example) (nb : notebook) : value :=
  match ex with
  | Ex1 => json_summary nb
  | Ex2 => json_entities nb
  | Ex3 => json_sentiment nb
  | Ex4 => json_classification nb
  | Ex5 => tool_output nb
  end.

(** A block the loop of an example stops at. *)
Definition selected (tool_name : string) (c : ContentBlock) : bool :=
  match c with
  | TextBlock _ => false
  | ToolUseBlock _ name _ => String.eqb name tool_name
  end.

Definition request_of (ex : example) (paragraphs : list string)
  : MessagesRequest :=
  match ex with
  | Ex1 => request1 paragraphs
  | Ex2 => request2
  | Ex3 => request3
  | Ex4 => request4
  | Ex5 => request5
  end.

(** *** Unbound names *)

(** In a kernel a name is unbound until a cell assigns it.  Every cell
    assigns its own result variable before it reads it; the last cell also
    reads [json_classification], which only the fourth cell assigns, and
    only once its request has returned.  [classification_bound] tells
    whether that has happened; [vars] holds the values of the variables, of
    no account for a name that is unbound. *)
Record kernel := { vars : notebook; classification_bound : bool }.

(** A kernel in which no cell has run. *)
Definition new_kernel : kernel :=
  {| vars := nothing_found; classification_bound := false |}.

(** The handling of a response in a kernel.  The fourth cell binds
    [json_classification].  The last cell, run while the name is unbound,
    raises NameError where it would print the variable, after the header
    line; when it has found nothing it does not read the name. *)
Definition handle_in (ex : example) (h : host) (response : Message)
    (k : kernel) (st : state) : outcome kernel :=
  match ex, classification_bound k with
  | Ex5, false =>
      match extract "print_all_characteristics" (content response) VNone with
      | Raise e => Raised e st
      | Ok v =>
          if truthy v then
            Raised (NameError "json_classification")
              (emit (Print "Characteristics (JSON):") st)
          else
            Done {| vars := {| json_summary := json_summary (vars k);
                               json_entities := json_entities (vars k);
                               json_sentiment := json_sentiment (vars k);
                               json_classification :=
                                 json_classification (vars k);
                               tool_output := v |};
                    classification_bound := false |}
              (emit (Print "Something went wrong.") st)
      end
  | _, _ =>
      match handle_of ex h response (vars k) st with
      | Done nb' st' =>
          Done {| vars := nb';
                  classification_bound :=
                    match ex with
                    | Ex4 => true
                    | _ => classification_bound k
                    end |} st'
      | Raised e st' => Raised e st'
      | OutOfFuel => OutOfFuel
      end
  end.

(** A cell run in a kernel: the article for the first cell, the request,
    the handling of the answer. *)
Definition cell_in (ex : example) (svc : services) (h : host) (k : kernel)
    (st : state) : outcome kernel :=
  match (match ex with Ex1 => fetch_paragraphs h url | _ => Ok [] end) with
  | Raise e => Raised e st
  | Ok paragraphs =>
      match create svc (request_of ex paragraphs) st with
      | Done response st1 => handle_in ex h response k st1
      | Raised e st1 => Raised e st1
      | OutOfFuel => OutOfFuel
      end
  end.

End ToolUse.

(** ** Observations used to state the properties *)

(** The events of one failed attempt of the upload embedding call. *)
Definition failed_attempt (batch : list string) (e : exn) : list event :=
  [EmbedRequest batch "voyage-2" "document" (Raise e); Sleep 5].

(** The [k]-th attempt (counting from the state [st]) of the upload embedding
    call for [batch]. *)
Definition attempt (svc : services) (batch : list string) (st : state)
    (k : nat) : result EmbeddingsObject :=
  vo_embed svc (requests st + k) batch "voyage-2" "document".

(** The events of one batch of a completed upload: the failed attempts, the
    successful embedding request, the upsert. *)
Definition batch_events (descriptions : list string) (i : nat)
    (out : list exn * EmbeddingsObject) : list event :=
  (out.1 ≫= failed_attempt (Upload.descriptions_batch_of descriptions i))
  ++ [EmbedRequest (Upload.descriptions_batch_of descriptions i)
        "voyage-2" "document" (Ok out.2);
      UpsertRequest (Upload.to_upsert_of descriptions i out.2) (Ok ())].


(** The ids of the vectors of all upsert requests of a log, in order. *)
Definition upserted_ids (events : list event) : list string :=
  events ≫= (λ ev, match ev with
                   | UpsertRequest vectors _ => vectors.*1.*1
                   | _ => []
                   end).


(** A request without its answer. *)
Inductive question : Type :=
| AskEmbed (texts : list string) (model input_type : string)
| AskUpsert (vectors : list triple)
| AskQuery (vec : list vector) (top_k : nat) (include_metadata : bool)
| AskCompletion (model prompt : string) (max_tokens_to_sample : nat)
| AskMessages (req : MessagesRequest).

(** The requests of a log, in order, without what the services answered. *)
Definition questions (events : list event) : list question :=
  events ≫= (λ ev, match ev with
                   | EmbedRequest texts model input_type _ =>
                       [AskEmbed texts model input_type]
                   | UpsertRequest vectors _ => [AskUpsert vectors]
                   | QueryRequest vec top_k include_metadata _ =>
                       [AskQuery vec top_k include_metadata]
                   | CompletionRequest model prompt n _ =>
                       [AskCompletion model prompt n]
                   | MessagesCall req _ => [AskMessages req]
                   | Sleep _ | Print _ => []
                   end).





(** The input of the first block the loop of [tool_name] stops at. *)
Definition first_selected (tool_name : string) (blocks : list ContentBlock)
  : option (list (string * value)) :=
  match filter (λ c, ToolUse.selected tool_name c = true) blocks with
  | ToolUseBlock _ _ input :: _ => Some input
  | _ => None
  end.

(** ** Sample worlds *)

(** An embedding that maps every text to the same one-dimensional vector. *)
Definition unit_vectors (texts : list string) : EmbeddingsObject :=
  {| embeddings := (λ _, [1%Q]) <$> texts |}.

(** The embedding service fails on the first two requests it sees, once with
    a rate limit and once with an interrupt, and answers from then on; the
    other services always answer. *)
Definition flaky : services :=
  {| vo_embed := λ n texts _ _,
       match n with
       | 0 => Raise RateLimitError
       | 1 => Raise KeyboardInterrupt
       | _ => Ok (unit_vectors texts)
       end;
     index_upsert := λ _ _, Ok ();
     index_query := λ _ _ _ _, Ok {| matches := [] |};
     completions_create := λ _ _ _ _, Ok "";
     messages_create := λ _ _, Ok {| content := [] |} |}.

(** 250 descriptions: two full batches and a half one. *)
Definition sample_descriptions : list string :=
  (λ k, "item " +:+ str_of_nat k) <$> seq 0 250.

(** A match whose metadata holds the given description. *)
Definition hit (id description : string) : ScoredVector :=
  {| match_id := id; match_score := 1;
     match_metadata := Some {[ "description" := description ]} |}.

(** Every service answers at once: the completion is a fixed keyword
    object, a query returns the same matches (two at most) whatever is asked,
    and a message is one tool invocation with an empty input. *)
Definition steady : services :=
  {| vo_embed := λ _ texts _ _, Ok (unit_vectors texts);
     index_upsert := λ _ _, Ok ();
     index_query := λ _ _ top_k _,
       Ok {| matches := take top_k [hit "description_3" "a kite";
                                    hit "description_8" "a prism"] |};
     completions_create := λ _ _ _ _, Ok "'keywords': ['kites', 'optics']}";
     messages_create := λ _ _,
       Ok {| content := [TextBlock "Here you go.";
                         ToolUseBlock "toolu_1" "print_all_characteristics" []] |} |}.

(** A host without files whose JSON parser accepts nothing. *)
Definition sample_host : host :=
  {| fs_read := λ path, Raise (FileNotFoundError path);
     py_str := λ v, match v with VNone => "None" | VDict [] => "{}" | _ => "..." end;
     json_loads := λ _, Raise JSONDecodeError;
     json_dumps := λ v _, match v with VNone => "null" | VDict [] => "{}" | _ => "..." end;
     b64encode := λ _, "";
     fetch_paragraphs := λ _, Ok [] |}.

(** A file with one line that evaluates and one that does not; [eval]
    changes nothing, and every list makes a frame. *)
Definition sample_dataset : dataset_host :=
  {| wget_open := λ path,
       if String.eqb path "amazon-products.jsonl"
       then Ok ["{'text': 'a kite'}"; "not python"]
       else Raise (FileNotFoundError path);
     eval_line := λ line l f,
       {| eval_result :=
            if String.eqb line "{'text': 'a kite'}"
            then Ok (VDict [("text", VStr "a kite")])
            else Raise SyntaxError;
          list_after := l; data_rebound := None; file_after := f |};
     pd_DataFrame := λ v,
       match v with
       | VList l => Ok {| head_shown := "..."; df_len := length l |}
       | _ => Raise TypeError
       end |}.

(** A file whose only line extends the list it is appended to. *)
Definition extending_dataset : dataset_host :=
  {| wget_open := λ _, Ok ["data.extend([1, 2, 3])"];
     eval_line := λ line l f,
       {| eval_result := Ok VNone;
          list_after := l ++ [VNum 1; VNum 2; VNum 3];
          data_rebound := None; file_after := f |};
     pd_DataFrame := λ v,
       match v with
       | VList l => Ok {| head_shown := "..."; df_len := length l |}
       | _ => Raise TypeError
       end |}.

(** A response whose only tool invocation has the empty object as input. *)
Definition empty_input_response (tool_name : string) : Message :=
  {| content := [TextBlock "Done."; ToolUseBlock "toolu_1" tool_name []] |}.

(** ** The remaining cells *)

(** *** Setting up the index *)

Module IndexSetup.

(** The control plane of the vector database, with the same convention as
    [services]: the first argument counts the requests sent before. *)
Record control := {
  list_indexes : nat → result (list string);   (* the names of the indexes *)
  create_index : nat → string → nat → string → string → string → result unit;
  describe_ready : nat → string → result bool; (* describe_index(n).status['ready'] *)
  describe_index_stats : nat → string → result nat (* total_vector_count *)
}.

Inductive step : Type :=
| ListIndexes (r : result (list string))
| CreateIndex (name : string) (dimension : nat) (metric cloud region : string)
              (r : result unit)
| DescribeIndex (name : string) (r : result bool)
| TimeSleep (seconds : nat)
| DescribeStats (name : string) (r : result nat).

Record cstate := {
  sent_requests : nat;
  waited : nat;
  steps : list step
}.

Definition start : cstate := {| sent_requests := 0; waited := 0; steps := [] |}.

Definition asked (s : step) (st : cstate) : cstate :=
  {| sent_requests := S (sent_requests st); waited := waited st;
     steps := steps st ++ [s] |}.

Inductive coutcome (A : Type) : Type :=
| CDone (a : A) (st : cstate)
| CRaised (e : exn) (st : cstate)
| COutOfFuel.
Arguments CDone {A} a st.
Arguments CRaised {A} e st.
Arguments COutOfFuel {A}.

Definition index_name : string := "amazon-products".

(** [time.sleep(seconds)]: the name [time] has to be bound in the kernel. *)
Definition time_sleep (time_bound : bool) (seconds : nat) (st : cstate)
  : result cstate :=
  if time_bound
  then Ok {| sent_requests := sent_requests st; waited := waited st + seconds;
             steps := steps st ++ [TimeSleep seconds] |}
  else Raise (NameError "time").

(** [while not pc.describe_index(index_name).status['ready']: time.sleep(1)] *)
Fixpoint wait_ready (fuel : nat) (time_bound : bool) (pc : control)
    (st : cstate) : coutcome unit :=
  match fuel with
  | 0 => COutOfFuel
  | S fuel' =>
      match describe_ready pc (sent_requests st) index_name with
      | Raise e => CRaised e (asked (DescribeIndex index_name (Raise e)) st)
      | Ok true => CDone () (asked (DescribeIndex index_name (Ok true)) st)
      | Ok false =>
          let st1 := asked (DescribeIndex index_name (Ok false)) st in
          match time_sleep time_bound 1 st1 with
          | Raise e => CRaised e st1
          | Ok st2 => wait_ready fuel' time_bound pc st2
          end
      end
  end.

(** [if index_name not in existing_indexes: create_index(...); while ...] *)
Definition ensure_index (fuel : nat) (time_bound : bool) (pc : control)
    (existing_indexes : list string) (st : cstate) : coutcome unit :=
  if bool_decide (index_name ∈ existing_indexes) then CDone () st
  else
    match create_index pc (sent_requests st) index_name 1024 "dotproduct"
            "aws" "us-west-2" with
    | Raise e =>
        CRaised e (asked (CreateIndex index_name 1024 "dotproduct" "aws"
                            "us-west-2" (Raise e)) st)
    | Ok _ =>
        wait_ready fuel time_bound pc
          (asked (CreateIndex index_name 1024 "dotproduct" "aws" "us-west-2"
                    (Ok ())) st)
    end.

(** The whole cell; its value is what [index.describe_index_stats()] shows. *)
Definition setup (fuel : nat) (time_bound : bool) (pc : control) (st : cstate)
  : coutcome nat :=
  match list_indexes pc (sent_requests st) with
  | Raise e => CRaised e (asked (ListIndexes (Raise e)) st)
  | Ok existing_indexes =>
      match ensure_index fuel time_bound pc existing_indexes
              (asked (ListIndexes (Ok existing_indexes)) st) with
      | CRaised e st1 => CRaised e st1
      | COutOfFuel => COutOfFuel
      | CDone _ st1 =>
          (* index = pc.Index(index_name) *)
          match time_sleep time_bound 1 st1 with
          | Raise e => CRaised e st1
          | Ok st2 =>
              match describe_index_stats pc (sent_requests st2) index_name with
              | Raise e => CRaised e (asked (DescribeStats index_name (Raise e)) st2)
              | Ok n => CDone n (asked (DescribeStats index_name (Ok n)) st2)
              end
          end
      end
  end.

(** The names the cells before this one bind: [time] is not among them (the
    notebook imports pandas, Pinecone and ServerlessSpec, and later only
    [sleep] from [time]). *)
Definition time_bound_in_notebook : bool := false.

End IndexSetup.

(** *** Answering, and the PDF run *)

Module RagRun.

(** [answer = get_completion(create_answer_prompt(results_list,
    USER_QUESTION)); print(answer)] *)
Definition answer_cell (svc : services) (results_list : list string)
    (USER_QUESTION : string) (st : state) : outcome string :=
  match Rag.get_completion svc
          (Rag.create_answer_prompt results_list USER_QUESTION) st with
  | Done answer st1 => Done answer (emit (Print answer) st1)
  | Raised e st1 => Raised e st1
  | OutOfFuel => OutOfFuel
  end.

End RagRun.

Module PdfRun.

Definition prompt : string :=
  nl +:+ "Please do the following:" +:+ nl
  +:+ "1. Summarize the abstract at a kindergarten reading level. (In <kindergarten_abstract> tags.)"
  +:+ nl
  +:+ "2. Write the Methods section as a recipe from the Moosewood Cookbook. (In <moosewood_methods> tags.)"
  +:+ nl
  +:+ "3. Compose a short poem epistolizing the results in the style of Homer. (In <homer_results> tags.)"
  +:+ nl.

Definition messages (base64_string : string) : list value :=
  [VDict [("role", VStr "user");
          ("content", VList [
             VDict [("type", VStr "document");
                    ("source", VDict [("type", VStr "base64");
                                      ("media_type", VStr "application/pdf");
                                      ("data", VStr base64_string)])];
             VDict [("type", VStr "text"); ("text", VStr prompt)]])]].

(** Read the file, ask, print. *)
Definition run (svc : services) (h : host) (st : state) : outcome string :=
  match Pdf.read_pdf h st with
  | Raised e st1 => Raised e st1
  | OutOfFuel => OutOfFuel
  | Done base64_string st1 =>
      match Pdf.get_completion svc (messages base64_string) st1 with
      | Done completion st2 => Done completion (emit (Print completion) st2)
      | Raised e st2 => Raised e st2
      | OutOfFuel => OutOfFuel
      end
  end.

End PdfRun.

(** *** The cells of the structured-JSON notebook, by example *)

Definition cell_of (ex : ToolUse.example)
  : services → host → ToolUse.notebook → state → outcome ToolUse.notebook :=
  match ex with
  | ToolUse.Ex1 => ToolUse.cell1
  | ToolUse.Ex2 => ToolUse.cell2
  | ToolUse.Ex3 => ToolUse.cell3
  | ToolUse.Ex4 => ToolUse.cell4
  | ToolUse.Ex5 => ToolUse.cell5
  end.

(** ** More observations *)

(** The state an outcome ends in, if it ends. *)
Definition state_of {A} (o : outcome A) : option state :=
  match o with
  | Done _ st | Raised _ st => Some st
  | OutOfFuel => None
  end.

(** The state the index cell ends in, if it ends. *)
Definition cstate_of {A} (o : IndexSetup.coutcome A) : option IndexSetup.cstate :=
  match o with
  | IndexSetup.CDone _ st | IndexSetup.CRaised _ st => Some st
  | IndexSetup.COutOfFuel => None
  end.

(** One unsuccessful poll of the index cell: the answer, then a second of
    waiting. *)
Definition idle_poll : list IndexSetup.step :=
  [IndexSetup.DescribeIndex IndexSetup.index_name (Ok false);
   IndexSetup.TimeSleep 1].

Definition is_done {A} (o : outcome A) : bool :=
  match o with Done _ _ => true | _ => false end.

Definition is_raised {A} (o : outcome A) : bool :=
  match o with Raised _ _ => true | _ => false end.

(** [s] occurs in [t]. *)
Definition occurs_in (s t : string) : Prop := ∃ pre post, t = pre +:+ s +:+ post.

(** The events of a batch whose upsert raised. *)
Definition aborted_batch_events (descriptions : list string) (i : nat)
    (out : list exn * EmbeddingsObject) (e : exn) : list event :=
  (out.1 ≫= failed_attempt (Upload.descriptions_batch_of descriptions i))
  ++ [EmbedRequest (Upload.descriptions_batch_of descriptions i)
        "voyage-2" "document" (Ok out.2);
      UpsertRequest (Upload.to_upsert_of descriptions i out.2) (Raise e)].

(** The triples of all accepted upserts of a log, in order. *)
Definition upserted (events : list event) : list triple :=
  events ≫= (λ ev, match ev with
                   | UpsertRequest vectors (Ok _) => vectors
                   | _ => []
                   end).

(** The embedding service returns one vector per text. *)
Definition one_vector_per_text (svc : services) : Prop :=
  ∀ n texts model input_type r,
    vo_embed svc n texts model input_type = Ok r →
    length (embeddings r) = length texts.

(** What closes one item and opens the next in a formatted result list. *)
Definition item_break (next_index : nat) : string :=
  nl +:+ "</page_content>" +:+ nl +:+ "</item>" +:+ nl
  +:+ "<item index=" +:+ dq +:+ str_of_nat next_index +:+ dq +:+ ">" +:+ nl
  +:+ "<page_content>" +:+ nl.

(** ** More sample worlds *)

(** The index does not exist yet and is ready at the third poll. *)
Definition slow_control : IndexSetup.control :=
  {| IndexSetup.list_indexes := λ _, Ok ["other-index"];
     IndexSetup.create_index := λ _ _ _ _ _ _, Ok ();
     IndexSetup.describe_ready := λ n _, Ok (4 <=? n);
     IndexSetup.describe_index_stats := λ _ _, Ok 0 |}.

(** The embedding service answers every request with a single vector,
    however many texts it was given. *)
Definition terse : services :=
  {| vo_embed := λ _ _ _ _, Ok {| embeddings := [[1%Q]] |};
     index_upsert := λ _ _, Ok ();
     index_query := λ _ _ _ _, Ok {| matches := [] |};
     completions_create := λ _ _ _ _, Ok "";
     messages_create := λ _ _, Ok {| content := [] |} |}.

(** Every message answer holds a classification and a list of
    characteristics. *)
Definition chatty : services :=
  {| vo_embed := λ _ texts _ _, Ok (unit_vectors texts);
     index_upsert := λ _ _, Ok ();
     index_query := λ _ _ _ _, Ok {| matches := [] |};
     completions_create := λ _ _ _ _, Ok "";
     messages_create := λ _ _,
       Ok {| content :=
               [ToolUseBlock "toolu_1" "print_classification"
                  [("categories", VList [])];
                ToolUseBlock "toolu_2" "print_all_characteristics"
                  [("height", VStr "tall")]] |} |}.

(** The upsert of the second batch is refused. *)
Definition refusing : services :=
  {| vo_embed := λ _ texts _ _, Ok (unit_vectors texts);
     index_upsert := λ n _, if 3 <=? n then Raise ConnectionError else Ok ();
     index_query := λ _ _ _ _, Ok {| matches := [] |};
     completions_create := λ _ _ _ _, Ok "";
     messages_create := λ _ _, Ok {| content := [] |} |}.

(** What the services said to the batch that starts at [i], sent from
    request number [n] on: the attempts before the last raised the errors
    [out.1] in turn, the next returned [out.2], and the index gave [answer]
    to the upsert of the triples built from the batch and [out.2]. *)
Definition batch_answers (svc : services) (descriptions : list string)
    (n i : nat) (out : list exn * EmbeddingsObject) (answer : result unit)
  : Prop :=
  (∀ k e, out.1 !! k = Some e →
     vo_embed svc (n + k) (Upload.descriptions_batch_of descriptions i)
       "voyage-2" "document" = Raise e)
  ∧ vo_embed svc (n + length out.1) (Upload.descriptions_batch_of descriptions i)
      "voyage-2" "document" = Ok out.2
  ∧ index_upsert svc (n + length out.1 + 1)
      (Upload.to_upsert_of descriptions i out.2) = answer.

(** The number of requests that batches with the answers [outs] take. *)
Definition requests_of (outs : list (list exn * EmbeddingsObject)) : nat :=
  sum_list ((λ out, length out.1 + 2) <$> outs).

(** What the services said to a row of batches, every upsert accepted. *)
Fixpoint run_answers (svc : services) (descriptions : list string) (n : nat)
    (starts : list nat) (outs : list (list exn * EmbeddingsObject)) : Prop :=
  match starts, outs with
  | [], [] => True
  | i :: starts', out :: outs' =>
      batch_answers svc descriptions n i out (Ok ())
      ∧ run_answers svc descriptions (n + length out.1 + 2) starts' outs'
  | _, _ => False
  end.


(** Every message answer is a single text. *)
Definition plain : services :=
  {| vo_embed := λ _ texts _ _, Ok (unit_vectors texts);
     index_upsert := λ _ _, Ok ();
     index_query := λ _ _ _ _, Ok {| matches := [] |};
     completions_create := λ _ _ _ _, Ok "Sure.";
     messages_create := λ _ _, Ok {| content := [TextBlock "A paper."] |} |}.

(** * Properties *)

(** ** The retry loop *)

Section retry.
Import Upload.
Variable svc : services.
Variable batch : list string.

Lemma retry_loop_done fuel v st :
  done v = true → retry_loop fuel svc batch v st = Some (v, st).
Proof. intros Hd. destruct fuel; simpl; by rewrite Hd. Qed.

Lemma retry_loop_step fuel r0 st :
  retry_loop (S fuel) svc batch {| done := false; res := r0 |} st =
  match attempt svc batch st 0 with
  | Ok r =>
      Some ({| done := true; res := Some r |},
            sent (EmbedRequest batch "voyage-2" "document" (Ok r)) st)
  | Raise e =>
      retry_loop fuel svc batch {| done := false; res := r0 |}
        (sleep 5 (sent (EmbedRequest batch "voyage-2" "document" (Raise e)) st))
  end.
Proof.
  unfold attempt. rewrite Nat.add_0_r. simpl. unfold retry_body.
  destruct (vo_embed svc (requests st) batch "voyage-2" "document"); [|done].
  by rewrite retry_loop_done.
Qed.

Lemma attempt_after_failure e st k :
  attempt svc batch
    (sleep 5 (sent (EmbedRequest batch "voyage-2" "document" (Raise e)) st)) k
  = attempt svc batch st (S k).
Proof. unfold attempt. simpl. by rewrite Nat.add_succ_r. Qed.

(** What a finished loop has done. *)
Lemma retry_loop_exit fuel r0 st v st' :
  retry_loop fuel svc batch {| done := false; res := r0 |} st = Some (v, st') →
  ∃ (errs : list exn) (r : EmbeddingsObject),
    length errs < fuel ∧
    (∀ j e, errs !! j = Some e → attempt svc batch st j = Raise e) ∧
    attempt svc batch st (length errs) = Ok r ∧
    v = {| done := true; res := Some r |} ∧
    requests st' = requests st + length errs + 1 ∧
    slept st' = slept st + 5 * length errs ∧
    log st' = log st ++ (errs ≫= failed_attempt batch)
                     ++ [EmbedRequest batch "voyage-2" "document" (Ok r)].
Proof.
  revert st. induction fuel as [|fuel IH]; intros st; [done|].
  rewrite retry_loop_step. destruct (attempt svc batch st 0) as [r|e] eqn:H0.
  - intros [= <- <-]. exists [], r. simpl. repeat split; try lia; done.
  - intros Hrun. destruct (IH _ Hrun) as (errs & r & Hlen & Herrs & Hok & Hv & Hreq & Hsl & Hlog).
    exists (e :: errs), r. simpl in *. repeat split; try lia; try done.
    + intros [|j] e' Hj; simpl in Hj.
      * by inversion Hj; subst.
      * rewrite <- attempt_after_failure with (e := e). by apply Herrs.
    + rewrite <- attempt_after_failure with (e := e). done.
    + rewrite Hlog. simpl. by rewrite <- !app_assoc.
Qed.

(** A first success at attempt [k] is reached with any budget above [k]. *)
Lemma retry_loop_reaches k : ∀ fuel r0 st,
  is_ok (attempt svc batch st k) = true → k < fuel →
  ∃ out, retry_loop fuel svc batch {| done := false; res := r0 |} st = Some out.
Proof.
  induction k as [|k IH]; intros [|fuel] r0 st Hok Hlt; try lia;
    rewrite retry_loop_step.
  - destruct (attempt svc batch st 0); [eauto | done].
  - destruct (attempt svc batch st 0) as [r|e]; [eauto|].
    apply IH; [|lia]. by rewrite attempt_after_failure.
Qed.

(** While every attempt fails the loop goes on: there is no cap. *)
Lemma retry_loop_no_cap n : ∀ r0 st,
  (∀ j, j < n → is_ok (attempt svc batch st j) = false) →
  retry_loop n svc batch {| done := false; res := r0 |} st = None.
Proof.
  induction n as [|n IH]; intros r0 st Hfail; [done|].
  rewrite retry_loop_step.
  pose proof (Hfail 0 ltac:(lia)) as H0.
  destruct (attempt svc batch st 0) as [r|e]; [done|].
  apply IH. intros j Hj. rewrite attempt_after_failure. apply Hfail. lia.
Qed.

End retry.

(** ** Slices and batch starts *)

Section batching.
Context {A : Type}.
Implicit Types l : list A.

Lemma range_step_from_0 n b :
  range_step 0 n b = (λ k, k * b) <$> seq 0 ((n + b - 1) / b).
Proof. unfold range_step. by rewrite Nat.sub_0_r. Qed.

Lemma batch_count_covers n b : 0 < b → n ≤ (n + b - 1) / b * b.
Proof.
  intros Hb. pose proof (Nat.div_mod_eq (n + b - 1) b) as Hd.
  pose proof (Nat.mod_upper_bound (n + b - 1) b ltac:(lia)). nia.
Qed.

Lemma batch_start_below n b k : 0 < b → k < (n + b - 1) / b → k * b < n.
Proof.
  intros Hb Hk. pose proof (Nat.div_mod_eq (n + b - 1) b) as Hd.
  pose proof (Nat.mod_upper_bound (n + b - 1) b ltac:(lia)). nia.
Qed.

(** Clamping the upper bound of a slice at the length changes nothing. *)
Lemma slice_clamped l i b :
  slice l i (min (length l) (i + b)) = take b (drop i l).
Proof.
  unfold slice. destruct (decide (i + b ≤ length l)) as [Hle|Hgt].
  - f_equal. lia.
  - rewrite !take_ge; [done|rewrite length_drop; lia..].
Qed.

Lemma length_slice_clamped l i b :
  length (slice l i (min (length l) (i + b))) = min b (length l - i).
Proof. rewrite slice_clamped, length_take, length_drop. done. Qed.

Lemma concat_chunks l b m :
  concat ((λ k, take b (drop (k * b) l)) <$> seq 0 m) = take (m * b) l.
Proof.
  induction m as [|m IH]; [done|].
  rewrite seq_S, fmap_app, concat_app, IH. simpl. rewrite app_nil_r.
  rewrite take_take_drop. f_equal. lia.
Qed.

Lemma concat_slices l b :
  0 < b →
  concat ((λ i, slice l i (min (length l) (i + b)))
            <$> range_step 0 (length l) b) = l.
Proof.
  intros Hb. rewrite range_step_from_0, <- list_fmap_compose.
  erewrite list_fmap_ext; [rewrite (concat_chunks l b)|].
  - apply take_ge. by apply batch_count_covers.
  - intros ? k _. simpl. apply slice_clamped.
Qed.

Lemma lookup_slice_clamped l i b j :
  slice l i (min (length l) (i + b)) !! j =
  if decide (j < b) then l !! (i + j) else None.
Proof.
  rewrite slice_clamped. case_decide.
  - by rewrite lookup_take_lt, lookup_drop.
  - apply lookup_ge_None_2. rewrite length_take. lia.
Qed.

End batching.

Lemma elem_of_concat {A} (x : A) (ls : list (list A)) :
  x ∈ concat ls ↔ ∃ l, x ∈ l ∧ l ∈ ls.
Proof.
  induction ls as [|l ls IH]; simpl.
  - split; [by intros ?%elem_of_nil | by intros (? & _ & ?%elem_of_nil)].
  - rewrite elem_of_app, IH. split.
    + intros [?|(l' & ? & ?)]; [exists l | exists l']; split; try done.
      * apply list_elem_of_here.
      * by apply list_elem_of_further.
    + intros (l' & Hx & [->|?]%elem_of_cons); [by left|right; eauto].
Qed.

Lemma lookup_zip3 {A B C} (a : list A) (b : list B) (c : list C) j :
  zip3 a b c !! j =
  match a !! j, b !! j, c !! j with
  | Some x, Some y, Some z => Some (x, y, z)
  | _, _, _ => None
  end.
Proof.
  revert b c j. induction a as [|x a IH]; intros [|y b] [|z c] [|j]; simpl;
    try done; try (by destruct (a !! j)); try (by destruct (a !! j), (b !! j)).
Qed.

(** The first components of a zip are an initial part of the first list. *)
Lemma zip3_ids_sublist {A B C} (a : list A) (b : list B) (c : list C) :
  (zip3 a b c).*1.*1 `sublist_of` a.
Proof.
  revert b c. induction a as [|x a IH]; intros [|y b] [|z c]; simpl;
    try apply sublist_nil_l. by apply sublist_skip.
Qed.

#[global] Instance id_of_inj : Inj (=) (=) Upload.id_of.
Proof.
  intros x y H. unfold Upload.id_of, str_of_nat in H.
  apply (inj (String.append "description_")) in H. by apply (inj pretty) in H.
Qed.

(** ** Runs of the upload loop *)

Section upload_runs.
Import Upload.
Variable svc : services.
Variable descriptions : list string.




(** One completed batch: the retry loop, then one accepted upsert. *)
Lemma upload_batch_done fuel i r0 st v st' :
  upload_batch fuel svc descriptions i r0 st = Done v st' →
  ∃ out, log st' = log st ++ batch_events descriptions i out ∧ v = Some out.2.
Proof.
  unfold upload_batch.
  destruct (retry_loop fuel _ _ _ _) as [[w st1]|] eqn:Hloop; [|done].
  apply retry_loop_exit in Hloop
    as (errs & r & _ & _ & _ & -> & _ & _ & Hlog). simpl.
  destruct (index_upsert svc _ _) as [[]|e]; [|done].
  intros [= <- <-]. exists (errs, r). split; [|done].
  unfold batch_events. simpl. rewrite Hlog. by rewrite <- !app_assoc.
Qed.

Lemma upload_for_done fuel starts : ∀ r0 st v st',
  for_each (upload_batch fuel svc descriptions) starts r0 st = Done v st' →
  ∃ outs, length outs = length starts ∧
    log st' = log st ++ concat (zip_with (batch_events descriptions) starts outs).
Proof.
  induction starts as [|i starts IH]; intros r0 st v st'; simpl.
  - intros [= <- <-]. exists []. by rewrite app_nil_r.
  - destruct (upload_batch fuel _ _ _ _ _) as [v1 st1| |] eqn:Hb; try done.
    intros Hrest. apply upload_batch_done in Hb as (out & Hlog1 & _).
    apply IH in Hrest as (outs & Hlen & Hlog). exists (out :: outs).
    simpl. split; [by rewrite Hlen|]. by rewrite Hlog, Hlog1, <- app_assoc.
Qed.

(** The same with what the services were asked: the triples of the batch
    are what [index.upsert] was called with. *)
Lemma upload_batch_done_answers fuel i r0 st v st' :
  upload_batch fuel svc descriptions i r0 st = Done v st' →
  ∃ out, v = Some out.2
    ∧ batch_answers svc descriptions (requests st) i out (Ok ())
    ∧ log st' = log st ++ batch_events descriptions i out
    ∧ requests st' = requests st + length out.1 + 2.
Proof.
  unfold upload_batch.
  destruct (retry_loop fuel _ _ _ _) as [[w st1]|] eqn:Hloop; [|done].
  apply retry_loop_exit in Hloop
    as (errs & r & _ & Herrs & Hok & -> & Hreq & _ & Hlog). simpl.
  destruct (index_upsert svc _ _) as [[]|e] eqn:Hup; [|done].
  intros [= <- <-]. exists (errs, r). simpl. split; [done|].
  split; [|split].
  - split; [exact Herrs|]. split; [exact Hok|]. simpl. by rewrite <- Hreq.
  - unfold batch_events. simpl. rewrite Hlog. by rewrite <- !app_assoc.
  - lia.
Qed.

Lemma upload_batch_raised_answers fuel i r0 st e st' :
  upload_batch fuel svc descriptions i r0 st = Raised e st' →
  ∃ out, batch_answers svc descriptions (requests st) i out (Raise e)
    ∧ log st' = log st ++ aborted_batch_events descriptions i out e.
Proof.
  unfold upload_batch.
  destruct (retry_loop fuel _ _ _ _) as [[w st1]|] eqn:Hloop; [|done].
  apply retry_loop_exit in Hloop
    as (errs & r & _ & Herrs & Hok & -> & Hreq & _ & Hlog). simpl.
  destruct (index_upsert svc _ _) as [[]|e'] eqn:Hup; [done|].
  intros [= <- <-]. exists (errs, r). simpl. split.
  - split; [exact Herrs|]. split; [exact Hok|]. simpl. by rewrite <- Hreq.
  - unfold aborted_batch_events. simpl. rewrite Hlog. by rewrite <- !app_assoc.
Qed.

Lemma upload_for_done_answers fuel starts : ∀ r0 st v st',
  for_each (upload_batch fuel svc descriptions) starts r0 st = Done v st' →
  ∃ outs, length outs = length starts
    ∧ run_answers svc descriptions (requests st) starts outs
    ∧ log st' = log st ++ concat (zip_with (batch_events descriptions) starts outs).
Proof.
  induction starts as [|i starts IH]; intros r0 st v st'; simpl.
  - intros [= <- <-]. exists []. by rewrite app_nil_r.
  - destruct (upload_batch fuel _ _ _ _ _) as [v1 st1| |] eqn:Hb; try done.
    intros Hrest.
    apply upload_batch_done_answers in Hb as (out & _ & Hans & Hlog1 & Hreq1).
    apply IH in Hrest as (outs & Hlen & Hrun & Hlog). exists (out :: outs).
    cbn [length zip_with concat run_answers].
    split; [by rewrite Hlen|]. split; [by rewrite <- Hreq1|].
    by rewrite Hlog, Hlog1, <- app_assoc.
Qed.

Lemma requests_of_cons out outs :
  requests_of (out :: outs) = length out.1 + 2 + requests_of outs.
Proof. reflexivity. Qed.

Lemma upload_for_raised_answers fuel starts : ∀ r0 st e st',
  for_each (upload_batch fuel svc descriptions) starts r0 st = Raised e st' →
  ∃ k i outs out,
    starts !! k = Some i ∧ length outs = k
    ∧ run_answers svc descriptions (requests st) (take k starts) outs
    ∧ batch_answers svc descriptions (requests st + requests_of outs) i out
        (Raise e)
    ∧ log st' = log st
        ++ concat (zip_with (batch_events descriptions) (take k starts) outs)
        ++ aborted_batch_events descriptions i out e.
Proof.
  induction starts as [|i starts IH]; intros r0 st e st'; simpl; [done|].
  destruct (upload_batch fuel _ _ _ _ _) as [v1 st1|e1 st1|] eqn:Hb; try done.
  - intros Hrest.
    apply upload_batch_done_answers in Hb as (out1 & _ & Hans1 & Hlog1 & Hreq1).
    apply IH in Hrest as (k & i' & outs & out & Hk & Hlen & Hrun & Hans & Hlog).
    exists (S k), i', (out1 :: outs), out.
    cbn [length take zip_with concat run_answers].
    split; [done|]. split; [by rewrite Hlen|].
    split; [split; [done|by rewrite <- Hreq1]|].
    split.
    + rewrite requests_of_cons.
      replace (requests st + (length out1.1 + 2 + requests_of outs))
        with (requests st1 + requests_of outs) by lia.
      exact Hans.
    + by rewrite Hlog, Hlog1, <- !app_assoc.
  - intros [= <- <-].
    apply upload_batch_raised_answers in Hb as (out & Hans & Hlog).
    exists 0, i, [], out. unfold requests_of. simpl.
    rewrite Nat.add_0_r. done.
Qed.



Lemma upserted_ids_app (l1 l2 : list event) :
  upserted_ids (l1 ++ l2) = upserted_ids l1 ++ upserted_ids l2.
Proof. apply bind_app. Qed.

Lemma upserted_ids_failed batch (errs : list exn) :
  upserted_ids (errs ≫= failed_attempt batch) = [].
Proof. induction errs as [|e errs IH]; [done|]. simpl. apply IH. Qed.

(** The ids a completed run has upserted are picked, in order, from the ids
    of its batches. *)
Lemma upserted_ids_sublist starts : ∀ outs,
  upserted_ids (concat (zip_with (batch_events descriptions) starts outs))
  `sublist_of` concat (ids_batch_of descriptions <$> starts).
Proof.
  induction starts as [|i starts IH]; intros [|out outs]; simpl;
    try apply sublist_nil_l.
  rewrite upserted_ids_app. apply sublist_app; [|apply IH].
  unfold batch_events. rewrite upserted_ids_app, upserted_ids_failed.
  simpl. rewrite app_nil_r. apply zip3_ids_sublist.
Qed.

End upload_runs.

Example batch_starts_sample :
  Upload.batch_starts sample_descriptions = [0; 100; 200].
Proof. reflexivity. Qed.

Example last_batch_sample :
  length (Upload.descriptions_batch_of sample_descriptions 200) = 50
  ∧ Upload.ids_batch_of sample_descriptions 200 !! 49 = Some "description_249".
Proof. split; vm_compute; reflexivity. Qed.


(** C1. The loop around the upload embedding call catches whatever the call
    raises, sleeps 5 seconds after each failed attempt and tries again, with
    no cap on the number of attempts and the same delay every time.  It
    terminates exactly when some attempt returns, and then [res] is the
    result of the first attempt that returned: all earlier attempts raised,
    the time slept is 5 seconds per failure, and the log is the failures
    followed by the one successful request. *)
Theorem retry_loop_spec (svc : services) (batch : list string)
    (r0 : option EmbeddingsObject) (st : state) :
  (∀ e v s, vo_embed svc (requests s) batch "voyage-2" "document" = Raise e →
     Upload.retry_body svc batch v s =
       (v, sleep 5 (sent (EmbedRequest batch "voyage-2" "document" (Raise e)) s)))
  ∧ (∀ n, (∀ j, j < n → is_ok (attempt svc batch st j) = false) →
       Upload.retry_loop n svc batch {| Upload.done := false; Upload.res := r0 |} st
       = None)
  ∧ ((∃ fuel out,
        Upload.retry_loop fuel svc batch
          {| Upload.done := false; Upload.res := r0 |} st = Some out)
     ↔ ∃ k, is_ok (attempt svc batch st k) = true)
  ∧ (∀ fuel v st',
       Upload.retry_loop fuel svc batch
         {| Upload.done := false; Upload.res := r0 |} st = Some (v, st') →
       ∃ (errs : list exn) (r : EmbeddingsObject),
         length errs < fuel
         ∧ (∀ j e, errs !! j = Some e → attempt svc batch st j = Raise e)
         ∧ attempt svc batch st (length errs) = Ok r
         ∧ Upload.done v = true ∧ Upload.res v = Some r
         ∧ requests st' = requests st + length errs + 1
         ∧ slept st' = slept st + 5 * length errs
         ∧ log st' = log st ++ (errs ≫= failed_attempt batch)
                       ++ [EmbedRequest batch "voyage-2" "document" (Ok r)]).
Proof.
  split; [|split; [|split]].
  - intros e v s He. unfold Upload.retry_body. by rewrite He.
  - intros n Hfail. by apply retry_loop_no_cap.
  - split.
    + intros (fuel & [v st'] & Hrun).
      apply retry_loop_exit in Hrun as (errs & r & _ & _ & Hok & _).
      exists (length errs). by rewrite Hok.
    + intros [k Hk]. exists (S k). apply retry_loop_reaches with (k := k); [done|lia].
  - intros fuel v st' Hrun.
    apply retry_loop_exit in Hrun as (errs & r & ? & ? & ? & -> & ? & ? & ?).
    exists errs, r. simpl. repeat split; done.
Qed.

Lemma retry_loop_spec_witness :
  (∃ k, is_ok (attempt flaky ["a"; "b"] initial k) = true)
  ∧ Upload.retry_loop 2 flaky ["a"; "b"]
      {| Upload.done := false; Upload.res := None |} initial = None.
Proof.
  pose proof (retry_loop_spec flaky ["a"; "b"] None initial) as (_ & Hcap & Hiff & _).
  split.
  - apply Hiff. exists 3. eexists. vm_compute. reflexivity.
  - apply Hcap. intros [|[|j]] Hj; [reflexivity | reflexivity | lia].
Defined.

(** ** Batches of the upload loop *)

Section upload_batches.
Import Upload.
Variable descriptions : list string.


Lemma elem_of_batch_starts i :
  i ∈ batch_starts descriptions ↔ ∃ k, i = k * 100 ∧ i < length descriptions.
Proof.
  unfold batch_starts, batch_size. rewrite range_step_from_0, list_elem_of_fmap.
  split.
  - intros (k & -> & Hk%elem_of_seq). exists k. split; [done|].
    apply (batch_start_below _ 100); lia.
  - intros (k & -> & Hlt). exists k. split; [done|]. apply elem_of_seq.
    pose proof (Nat.div_mod_eq (length descriptions + 100 - 1) 100).
    pose proof (Nat.mod_upper_bound (length descriptions + 100 - 1) 100).
    lia.
Qed.

Lemma length_descriptions_batch i :
  length (descriptions_batch_of descriptions i)
  = min 100 (length descriptions - i).
Proof. apply length_slice_clamped. Qed.

Lemma lookup_descriptions_batch i j :
  descriptions_batch_of descriptions i !! j =
  if decide (j < 100) then descriptions !! (i + j) else None.
Proof. apply lookup_slice_clamped. Qed.

Lemma lookup_metadata_batch i j :
  metadata_batch_of descriptions i !! j =
  if decide (j < 100)
  then (λ d, {[ "description" := d ]}) <$> descriptions !! (i + j)
  else None.
Proof.
  unfold metadata_batch_of.
  rewrite list_lookup_fmap, lookup_descriptions_batch. by case_decide.
Qed.

Lemma lookup_ids_batch i j :
  ids_batch_of descriptions i !! j =
  if decide (j < 100 ∧ i + j < length descriptions)
  then Some (id_of (i + j)) else None.
Proof.
  unfold ids_batch_of, range, i_end_of, batch_size. rewrite list_lookup_fmap.
  case_decide as Hj.
  - rewrite lookup_seq_lt; [done|lia].
  - rewrite lookup_seq_ge; [done|lia].
Qed.

(** The index ranges of the batches are the slices of [0 .. len). *)
Lemma range_as_slice i :
  range i (i_end_of descriptions i)
  = slice (seq 0 (length descriptions)) i
      (min (length descriptions) (i + batch_size)).
Proof.
  unfold range, i_end_of, slice. rewrite drop_seq, take_seq.
  simpl. f_equal. lia.
Qed.

Lemma concat_ids_batches :
  concat (ids_batch_of descriptions <$> batch_starts descriptions)
  = id_of <$> seq 0 (length descriptions).
Proof.
  transitivity
    (id_of <$> concat ((λ i, range i (i_end_of descriptions i))
                         <$> batch_starts descriptions)).
  { induction (batch_starts descriptions) as [|i starts IH]; [done|].
    simpl. rewrite fmap_app. f_equal. apply IH. }
  f_equal.
  erewrite list_fmap_ext; [|intros ? i _; apply range_as_slice].
  pose proof (concat_slices (seq 0 (length descriptions)) batch_size) as Hc.
  rewrite length_seq in Hc. apply Hc. unfold batch_size. lia.
Qed.

End upload_batches.





(** C5. For the batch that starts at global index [i], the triples handed to
    the upsert are the positional zip of ids, embeddings and metadata: the
    [j]-th triple exists exactly when [j] is below the batch size and both an
    embedding [j] and a description [i+j] exist, and it is
    ("description_{i+j}", res.embeddings[j], {'description': descriptions[i+j]}).
    Every uploaded metadata value is a dictionary whose only key,
    'description', maps to the source text at that position; and the upsert
    requests of a completed run carry exactly these triples.  They are what
    [index.upsert] is called with: in a completed run the index accepted,
    batch by batch, the triples built from the batch and from what the
    embedding service returned for it, and a batch that raises does so with
    what the index answered to these triples. *)
Theorem upsert_triples_positional (descriptions : list string) :
  (∀ i r,
     Upload.to_upsert_of descriptions i r
     = zip3 (Upload.ids_batch_of descriptions i) (embeddings r)
         (Upload.metadata_batch_of descriptions i))
  ∧ (∀ i r j t,
       Upload.to_upsert_of descriptions i r !! j = Some t ↔
       j < 100 ∧ ∃ v d, embeddings r !! j = Some v
         ∧ descriptions !! (i + j) = Some d
         ∧ t = ("description_" +:+ str_of_nat (i + j), v,
                ({[ "description" := d ]} : metadata)))
  ∧ (∀ i r id v (md : metadata),
       (id, v, md) ∈ Upload.to_upsert_of descriptions i r →
       ∃ d, d ∈ descriptions ∧ md = {[ "description" := d ]}
         ∧ dom md = {[ "description" ]} ∧ md !! "description" = Some d)
  ∧ (∀ svc fuel v st' vectors answer,
       Upload.upload_loop fuel svc descriptions initial = Done v st' →
       UpsertRequest vectors answer ∈ log st' →
       ∃ i r, i ∈ Upload.batch_starts descriptions
         ∧ EmbedRequest (Upload.descriptions_batch_of descriptions i)
             "voyage-2" "document" (Ok r) ∈ log st'
         ∧ vectors = Upload.to_upsert_of descriptions i r)
  ∧ (∀ svc fuel v st st',
       Upload.upload_loop fuel svc descriptions st = Done v st' →
       ∃ outs, length outs = length (Upload.batch_starts descriptions)
         ∧ run_answers svc descriptions (requests st)
             (Upload.batch_starts descriptions) outs
         ∧ log st' = log st
             ++ concat (zip_with (batch_events descriptions)
                          (Upload.batch_starts descriptions) outs))
  ∧ (∀ svc fuel i r0 st,
       match Upload.upload_batch fuel svc descriptions i r0 st with
       | Done v st' =>
           ∃ out, v = Some out.2
             ∧ batch_answers svc descriptions (requests st) i out (Ok ())
             ∧ log st' = log st ++ batch_events descriptions i out
       | Raised e st' =>
           ∃ out, batch_answers svc descriptions (requests st) i out (Raise e)
             ∧ log st' = log st ++ aborted_batch_events descriptions i out e
       | OutOfFuel => True
       end).
Proof.
  assert (Hlookup : ∀ i r j t,
       Upload.to_upsert_of descriptions i r !! j = Some t ↔
       j < 100 ∧ ∃ v d, embeddings r !! j = Some v
         ∧ descriptions !! (i + j) = Some d
         ∧ t = ("description_" +:+ str_of_nat (i + j), v,
                ({[ "description" := d ]} : metadata))).
  { intros i r j t. unfold Upload.to_upsert_of. cbv zeta.
    rewrite list_fmap_id, lookup_zip3, lookup_ids_batch, lookup_metadata_batch.
    split.
    - case_decide as Hj; [|done]. destruct Hj as [Hj Hlen].
      destruct (embeddings r !! j) as [v|]; [|done].
      rewrite decide_True by done.
      destruct (descriptions !! (i + j)) as [d|]; [|done]. simpl.
      intros [= <-]. eauto 10.
    - intros (Hj & v & d & -> & Hd & ->).
      apply lookup_lt_Some in Hd as Hlen.
      rewrite !decide_True by done. by rewrite Hd. }
  split; [|split; [done|split; [|split; [|split]]]].
  - intros i r. unfold Upload.to_upsert_of. cbv zeta. by rewrite list_fmap_id.
  - intros i r id v md (j & Hj)%list_elem_of_lookup.
    apply Hlookup in Hj as (_ & v' & d & _ & Hd & [= -> -> ->]).
    exists d. split; [by eapply list_elem_of_lookup_2|].
    split; [done|]. split; [apply dom_singleton_L | apply lookup_singleton_eq].
  - intros svc fuel v st' vectors answer Hrun Hin.
    apply upload_for_done in Hrun as (outs & _ & Hlog). simpl in Hlog.
    rewrite Hlog in *. clear Hlog.
    apply elem_of_concat in Hin as (evs & Hin & Hevs).
    apply list_elem_of_lookup in Hevs as (n & Hn).
    apply lookup_zip_with_Some in Hn as (i & out & -> & Hi & Hout).
    exists i, out.2. split; [by eapply list_elem_of_lookup_2|].
    assert (Hembed : EmbedRequest (Upload.descriptions_batch_of descriptions i)
              "voyage-2" "document" (Ok out.2) ∈ batch_events descriptions i out).
    { unfold batch_events. rewrite elem_of_app. right. apply list_elem_of_here. }
    split.
    + apply elem_of_concat. eexists. split; [exact Hembed|].
      apply list_elem_of_lookup. exists n. apply lookup_zip_with_Some. eauto.
    + unfold batch_events in Hin. apply elem_of_app in Hin as [Hin|Hin].
      * apply list_elem_of_bind in Hin as (e & Hin & _).
        unfold failed_attempt in Hin.
        rewrite !elem_of_cons, elem_of_nil in Hin.
        by destruct Hin as [[=]|[[=]|[]]].
      * rewrite !elem_of_cons, elem_of_nil in Hin.
        by destruct Hin as [[=]|[[= -> _]|[]]].
  - intros svc fuel v st st' Hrun. by apply upload_for_done_answers in Hrun.
  - intros svc fuel i r0 st.
    destruct (Upload.upload_batch fuel svc descriptions i r0 st)
      as [v st'|e st'|] eqn:Hb; [| |done].
    + apply upload_batch_done_answers in Hb as (out & ? & ? & ? & _). eauto.
    + by apply upload_batch_raised_answers in Hb.
Qed.

Lemma upsert_triples_positional_witness :
  ∃ d, d ∈ sample_descriptions
    ∧ ({[ "description" := "item 207" ]} : metadata) = {[ "description" := d ]}
    ∧ dom ({[ "description" := "item 207" ]} : metadata) = {[ "description" ]}
    ∧ ({[ "description" := "item 207" ]} : metadata) !! "description" = Some d.
Proof.
  pose proof (upsert_triples_positional sample_descriptions) as (_ & Hj & Hmd & _).
  apply (Hmd 200 (unit_vectors (Upload.descriptions_batch_of sample_descriptions 200))
           "description_207" [1%Q]).
  apply list_elem_of_lookup. exists 7. apply Hj. split; [lia|].
  exists [1%Q], "item 207". repeat split; vm_compute; reflexivity.
Defined.

Example id_of_sample : Upload.id_of 1771 = "description_1771".
Proof. vm_compute. reflexivity. Qed.

(** C10. Within one run of the upload loop the ids are pairwise distinct:
    the description at global index [k] gets the id "description_k" in the
    batch that holds it, the map from [k] to that id is injective, the
    batches draw their ids from disjoint index ranges that together are
    [0 .. len), and so neither the ids the batches build nor the ids a
    completed run has upserted contain a repetition. *)
Theorem upsert_ids_distinct (descriptions : list string) :
  (∀ k d, descriptions !! k = Some d →
     ∃ i j, i ∈ Upload.batch_starts descriptions ∧ k = i + j
       ∧ Upload.descriptions_batch_of descriptions i !! j = Some d
       ∧ Upload.ids_batch_of descriptions i !! j
         = Some ("description_" +:+ str_of_nat k))
  ∧ (∀ k k', Upload.id_of k = Upload.id_of k' → k = k')
  ∧ (∀ i1 i2 k,
       i1 ∈ Upload.batch_starts descriptions →
       i2 ∈ Upload.batch_starts descriptions →
       k ∈ range i1 (Upload.i_end_of descriptions i1) →
       k ∈ range i2 (Upload.i_end_of descriptions i2) → i1 = i2)
  ∧ concat (Upload.ids_batch_of descriptions <$> Upload.batch_starts descriptions)
    = Upload.id_of <$> seq 0 (length descriptions)
  ∧ NoDup (concat (Upload.ids_batch_of descriptions
                     <$> Upload.batch_starts descriptions))
  ∧ (∀ svc fuel v st',
       Upload.upload_loop fuel svc descriptions initial = Done v st' →
       NoDup (upserted_ids (log st'))).
Proof.
  assert (Hnodup : NoDup (concat (Upload.ids_batch_of descriptions
                                    <$> Upload.batch_starts descriptions))).
  { rewrite concat_ids_batches. apply NoDup_fmap_2; [apply _|apply NoDup_seq]. }
  split.
  { intros k d Hd. apply lookup_lt_Some in Hd as Hlt.
    pose proof (Nat.div_mod_eq k 100) as Hk.
    pose proof (Nat.mod_upper_bound k 100 ltac:(lia)) as Hm.
    exists (k / 100 * 100), (k `mod` 100).
    split; [apply elem_of_batch_starts; exists (k / 100); lia|].
    split; [lia|].
    rewrite lookup_descriptions_batch, lookup_ids_batch.
    replace (k / 100 * 100 + k `mod` 100) with k by lia.
    rewrite !decide_True by done. done. }
  split; [intros k k'; apply (inj Upload.id_of)|].
  split.
  { intros i1 i2 k (k1 & -> & _)%elem_of_batch_starts
      (k2 & -> & _)%elem_of_batch_starts.
    unfold range, Upload.i_end_of, Upload.batch_size.
    rewrite !elem_of_seq. lia. }
  split; [apply concat_ids_batches|].
  split; [done|].
  intros svc fuel v st' Hrun.
  apply upload_for_done in Hrun as (outs & _ & Hlog). simpl in Hlog.
  rewrite Hlog. eapply sublist_NoDup; [done|apply upserted_ids_sublist].
Qed.

Lemma upsert_ids_distinct_witness :
  ∃ i j, i ∈ Upload.batch_starts sample_descriptions ∧ 207 = i + j
    ∧ Upload.descriptions_batch_of sample_descriptions i !! j = Some "item 207"
    ∧ Upload.ids_batch_of sample_descriptions i !! j
      = Some ("description_" +:+ str_of_nat 207).
Proof.
  apply (upsert_ids_distinct sample_descriptions). vm_compute. reflexivity.
Defined.

(** ** Which functions depend on the services *)

Example format_results_sample :
  Rag.format_results ["a kite"; "a prism"]
  = nl +:+ "<search_results>" +:+ nl
    +:+ "<item index=" +:+ dq +:+ "1" +:+ dq +:+ ">" +:+ nl
    +:+ "<page_content>" +:+ nl +:+ "a kite" +:+ nl +:+ "</page_content>" +:+ nl
    +:+ "</item>" +:+ nl
    +:+ "<item index=" +:+ dq +:+ "2" +:+ dq +:+ ">" +:+ nl
    +:+ "<page_content>" +:+ nl +:+ "a prism" +:+ nl +:+ "</page_content>" +:+ nl
    +:+ "</item>" +:+ nl +:+ "</search_results>".
Proof. vm_compute. reflexivity. Qed.

Example format_results_empty :
  Rag.format_results []
  = nl +:+ "<search_results>" +:+ nl +:+ nl +:+ "</search_results>".
Proof. vm_compute. reflexivity. Qed.

(** C3, as stated, fails: the output of [format_results] is fixed by its
    argument, whatever the services answer. *)
Lemma format_results_is_deterministic :
  ¬ (∀ f : fn, service_dependent f).
Proof.
  intros Hall.
  destruct (Hall fn_format_results) as (x & svc1 & svc2 & st & a1 & a2 & H1 & H2 & Hne).
  simpl in H1, H2. congruence.
Qed.

(** C3, amended. Of the functions the notebooks define, the two
    [get_completion] functions are the ones whose returned value depends on
    the answers of a service: each returns exactly what the service
    answered to its one request (the completion text; the text of the
    first content block of the message).  [create_keyword_prompt],
    [format_results] and [create_answer_prompt] are deterministic: in any
    two worlds and any two states a call with the same arguments returns,
    returns the same string, and leaves the state as it was. *)
Theorem service_dependence (f : fn) :
  (service_dependent f ↔ f = fn_get_completion ∨ f = fn_pdf_get_completion)
  ∧ (f ≠ fn_get_completion → f ≠ fn_pdf_get_completion →
     ∀ (x : params f) svc1 svc2 st1 st2, ∃ a,
       call f svc1 st1 x = Done a st1 ∧ call f svc2 st2 x = Done a st2)
  ∧ (∀ svc st prompt completion,
       returned (call fn_get_completion svc st prompt) = Some completion
       ↔ completions_create svc (requests st) "claude-2.1" prompt 1024
         = Ok completion)
  ∧ (∀ svc st messages text,
       returned (call fn_pdf_get_completion svc st messages) = Some text
       ↔ ∃ response rest,
           messages_create svc (requests st)
             {| req_model := Pdf.MODEL_NAME; req_max_tokens := 2048;
                req_tools := []; req_tool_choice := None;
                req_messages := messages |} = Ok response
           ∧ content response = TextBlock text :: rest).
Proof.
  split; [|split; [|split]].
  - split.
    + intros (x & svc1 & svc2 & st & a1 & a2 & H1 & H2 & Hne).
      destruct f; try (by left); try (by right); exfalso;
        simpl in H1, H2; try destruct x; simpl in H1, H2; congruence.
    + intros [-> | ->].
      * exists "", steady, terse, initial. eexists _, _.
        split; [reflexivity|]. split; [reflexivity|]. discriminate.
      * exists [], steady, plain, initial. eexists _, _.
        split; [reflexivity|]. split; [reflexivity|]. discriminate.
  - intros Hc Hp x svc1 svc2 st1 st2.
    destruct f; try done; simpl in *; try destruct x; eauto.
  - intros svc st prompt completion. simpl. unfold Rag.get_completion.
    destruct (completions_create svc _ _ _ _) as [c|e]; simpl; split; congruence.
  - intros svc st messages text. simpl. unfold Pdf.get_completion.
    destruct (messages_create svc _ _) as [response|e]; simpl.
    + destruct (content response) as [|[t|i n inp] rest] eqn:Hcontent; simpl.
      * split; [done|]. intros (r & rest' & [= <-] & Hr). congruence.
      * split.
        -- intros [= ->]. eauto.
        -- intros (r & rest' & [= <-] & Hr). congruence.
      * split; [done|]. intros (r & rest' & [= <-] & Hr). congruence.
    + split; [done|]. by intros (r & rest' & [=] & _).
Qed.

Lemma service_dependence_witness :
  ∃ a, call fn_format_results steady initial ["a kite"] = Done a initial
    ∧ call fn_format_results plain (sleep 5 initial) ["a kite"]
      = Done a (sleep 5 initial).
Proof.
  apply (service_dependence fn_format_results); discriminate.
Defined.

(** ** The keyword search *)

Section search.
Variable svc : services.




Lemma questions_app (l1 l2 : list event) :
  questions (l1 ++ l2) = questions l1 ++ questions l2.
Proof. apply bind_app. Qed.



End search.





(** ** The extraction loops *)

Section extraction.
Import ToolUse.

Lemma first_selected_cons tool_name c blocks :
  first_selected tool_name (c :: blocks) =
  match c with
  | ToolUseBlock _ name input =>
      if String.eqb name tool_name then Some input
      else first_selected tool_name blocks
  | TextBlock _ => first_selected tool_name blocks
  end.
Proof.
  unfold first_selected. rewrite filter_cons.
  destruct c as [text|id name input]; case_decide as Hsel; simpl in Hsel;
    try done.
  - by rewrite Hsel.
  - by destruct (String.eqb name tool_name).
Qed.

(** The loop never raises, and yields the input of the first selected block,
    or the initial value when no block is selected. *)
Lemma extract_first tool_name blocks var :
  extract tool_name blocks var =
  Ok (from_option VDict var (first_selected tool_name blocks)).
Proof.
  induction blocks as [|c blocks IH]; [done|].
  rewrite first_selected_cons. destruct c as [text|id name input]; simpl; [done|].
  by destruct (String.eqb name tool_name).
Qed.

Lemma first_selected_None tool_name blocks :
  first_selected tool_name blocks = None ↔
  Forall (λ c, selected tool_name c = false) blocks.
Proof.
  induction blocks as [|c blocks IH]; [by split; [constructor|]|].
  rewrite first_selected_cons, Forall_cons, <- IH.
  destruct c as [text|id name input]; simpl; [tauto|].
  destruct (String.eqb name tool_name); [|tauto].
  split; [discriminate | intros [[=] _]].
Qed.

Lemma emit_inj_log ev1 ev2 ev3 st :
  emit ev1 (emit ev2 st) ≠ emit ev3 st.
Proof.
  unfold emit. simpl. intros [= H]. rewrite <- app_assoc in H.
  apply app_inv_head in H. discriminate H.
Qed.

End extraction.

Example extract_sample :
  ToolUse.extract "print_summary"
    [TextBlock "I will call the tool.";
     ToolUseBlock "toolu_0" "other_tool" [("x", VBool true)];
     ToolUseBlock "toolu_1" "print_summary" [("author", VStr "A")];
     ToolUseBlock "toolu_2" "print_summary" [("author", VStr "B")]] VNone
  = Ok (VDict [("author", VStr "A")]).
Proof. reflexivity. Qed.

Example empty_input_sample :
  ToolUse.handle1 sample_host (empty_input_response "print_summary")
    ToolUse.nothing_found initial
  = Done {| ToolUse.json_summary := VDict [];
            ToolUse.json_entities := VNone; ToolUse.json_sentiment := VNone;
            ToolUse.json_classification := VNone;
            ToolUse.tool_output := VNone |}
      (emit (Print "No JSON summary found in the response.") initial).
Proof. reflexivity. Qed.

(** C7, as stated, fails when the block that is found carries the empty
    object: the block exists, and still the fallback message is printed. *)
Lemma fallback_despite_block :
  ¬ (∀ (ex : ToolUse.example) (h : host) (response : Message)
       (nb nb' : ToolUse.notebook) (st st' : state),
       ToolUse.handle_of ex h response nb st = Done nb' st' →
       (ToolUse.result_of ex nb' = VNone
        ↔ Forall (λ c, ToolUse.selected (ToolUse.tool_name_of ex) c = false)
            (content response))
       ∧ (st' = emit (Print (ToolUse.fallback_of ex)) st
          ↔ Forall (λ c, ToolUse.selected (ToolUse.tool_name_of ex) c = false)
              (content response))).
Proof.
  intros Hclaim.
  destruct (Hclaim ToolUse.Ex5 sample_host
              (empty_input_response "print_all_characteristics")
              ToolUse.nothing_found _ initial _ eq_refl) as [_ [Hprinted _]].
  specialize (Hprinted eq_refl).
  apply Forall_cons in Hprinted as [_ Hprinted].
  apply Forall_cons in Hprinted as [Hblock _]. discriminate Hblock.
Qed.

(** C7, amended. For every response, the loop of each example sets the
    example's result variable to the input of the first content block of
    type "tool_use" whose name is the example's tool name, and leaves every
    other variable alone.  The result stays None if and only if the response
    has no such block.  The fallback message is printed if and only if the
    response has no such block or the first such block carries the empty
    object, the branch being taken on the truth value of the result. *)
Theorem extraction_spec (ex : ToolUse.example) (h : host) (response : Message)
    (nb : ToolUse.notebook) (st : state) :
  ∃ nb' st',
    ToolUse.handle_of ex h response nb st = Done nb' st'
    ∧ ToolUse.extract (ToolUse.tool_name_of ex) (content response) VNone
      = Ok (ToolUse.result_of ex nb')
    ∧ ToolUse.result_of ex nb'
      = from_option VDict VNone
          (first_selected (ToolUse.tool_name_of ex) (content response))
    ∧ (∀ ex', ex' ≠ ex → ToolUse.result_of ex' nb' = ToolUse.result_of ex' nb)
    ∧ (ToolUse.result_of ex nb' = VNone
       ↔ Forall (λ c, ToolUse.selected (ToolUse.tool_name_of ex) c = false)
           (content response))
    ∧ (st' = emit (Print (ToolUse.fallback_of ex)) st
       ↔ truthy (ToolUse.result_of ex nb') = false)
    ∧ (st' = emit (Print (ToolUse.fallback_of ex)) st
       ↔ first_selected (ToolUse.tool_name_of ex) (content response) = None
         ∨ first_selected (ToolUse.tool_name_of ex) (content response) = Some [])
    ∧ (ToolUse.result_of ex nb' = VNone
       ∧ st' = emit (Print (ToolUse.fallback_of ex)) st
       ↔ Forall (λ c, ToolUse.selected (ToolUse.tool_name_of ex) c = false)
           (content response)).
Proof.
  pose proof (first_selected_None (ToolUse.tool_name_of ex) (content response))
    as Hnone.
  destruct ex; simpl in *;
    [unfold ToolUse.handle1 | unfold ToolUse.handle2 | unfold ToolUse.handle3
    | unfold ToolUse.handle4 | unfold ToolUse.handle5];
    rewrite extract_first; simpl;
    (destruct (first_selected _ (content response)) as [[|kv kvs]|] eqn:Hsel;
     simpl; eexists _, _; (split; [reflexivity|]); simpl;
     (split; [reflexivity|]); (split; [reflexivity|]);
     (split; [by intros []|]); repeat split).
  all: try (by intros ?%Hnone).
  all: try match goal with
           | HF : Forall _ _ |- _ => by apply Hnone in HF
           end.
  all: try (by intros ?%emit_inj_log).
  all: try (by intros [[=]|[=]]).
  all: try (by intros [[=] _]).
  all: try (by intros [=]).
  all: try (by right).
  all: try (by left).
  all: try done.
  all: try (intros _); by apply Hnone.
Qed.

(** ** The last cell *)

(** Example 4 found nothing, Example 5 found a tall man: what is printed is
    the (empty) classification. *)
Example characteristics_sample :
  ToolUse.handle5 sample_host
    {| content := [ToolUseBlock "toolu_1" "print_all_characteristics"
                     [("height", VStr "tall")]] |}
    ToolUse.nothing_found initial
  = Done {| ToolUse.json_summary := VNone; ToolUse.json_entities := VNone;
            ToolUse.json_sentiment := VNone;
            ToolUse.json_classification := VNone;
            ToolUse.tool_output := VDict [("height", VStr "tall")] |}
      {| requests := 0; slept := 0;
         log := [Print "Characteristics (JSON):"; Print "null"] |}.
Proof. reflexivity. Qed.

(** C8, as stated, fails when the block that is found carries the empty
    object: [tool_output] is then {} and not None, and nothing is printed
    under "Characteristics (JSON):". *)
Lemma empty_characteristics_print_nothing :
  ¬ (∀ (h : host) (response : Message) (nb : ToolUse.notebook) (st : state),
       first_selected "print_all_characteristics" (content response) ≠ None →
       ∃ nb', ToolUse.handle5 h response nb st
              = Done nb' (emit (Print (json_dumps h (ToolUse.json_classification nb) 2))
                            (emit (Print "Characteristics (JSON):") st))).
Proof.
  intros Hclaim.
  destruct (Hclaim sample_host (empty_input_response "print_all_characteristics")
              ToolUse.nothing_found initial) as [nb' Hrun]; [discriminate|].
  vm_compute in Hrun. discriminate Hrun.
Qed.

(** C8, amended. In Example 5, whenever the first tool_use block named
    print_all_characteristics carries a non-empty input, tool_output is that
    input and the value printed under "Characteristics (JSON):" is
    json_classification, the result of Example 4, unchanged by this cell; it
    is the same whatever the response holds.  When that block carries the
    empty object, or no such block exists, "Something went wrong." is
    printed instead. *)
Theorem characteristics_print_classification (h : host) (response : Message)
    (nb : ToolUse.notebook) (st : state) :
  ∃ nb' st',
    ToolUse.handle5 h response nb st = Done nb' st'
    ∧ ToolUse.tool_output nb'
      = from_option VDict VNone
          (first_selected "print_all_characteristics" (content response))
    ∧ ToolUse.json_classification nb' = ToolUse.json_classification nb
    ∧ st' = match first_selected "print_all_characteristics" (content response) with
            | Some (_ :: _) =>
                emit (Print (json_dumps h (ToolUse.json_classification nb) 2))
                  (emit (Print "Characteristics (JSON):") st)
            | Some [] | None => emit (Print "Something went wrong.") st
            end
    ∧ ∀ response2 kv kvs kv2 kvs2,
        first_selected "print_all_characteristics" (content response)
          = Some (kv :: kvs) →
        first_selected "print_all_characteristics" (content response2)
          = Some (kv2 :: kvs2) →
        ∃ nb2, ToolUse.handle5 h response2 nb st = Done nb2 st'.
Proof.
  unfold ToolUse.handle5. rewrite extract_first. simpl.
  destruct (first_selected _ (content response)) as [[|kv kvs]|] eqn:Hsel;
    simpl; eexists _, _; repeat (split; [reflexivity|]); try done.
  intros response2 kv' kvs' kv2 kvs2 _ Hsel2.
  rewrite extract_first, Hsel2. simpl. eauto.
Qed.

(** ** The tool schemas *)

(** C9. The schema of print_summary lists 'counterpoint' as required although
    its properties do not declare it, so its required names are not a subset
    of its declared properties; in each of the other four tool schemas of
    the notebook every required name is a declared property. *)
Theorem required_versus_declared :
  ToolUse.all_tools !! 0 = Some ToolUse.print_summary_tool
  ∧ ToolUse.required_of (ToolUse.input_schema ToolUse.print_summary_tool)
    = ["author"; "topics"; "summary"; "coherence"; "persuasion"; "counterpoint"]
  ∧ ToolUse.properties_of (ToolUse.input_schema ToolUse.print_summary_tool)
    = ["author"; "topics"; "summary"; "coherence"; "persuasion"]
  ∧ "counterpoint"
      ∈ ToolUse.required_of (ToolUse.input_schema ToolUse.print_summary_tool)
  ∧ ("counterpoint"
      ∉ ToolUse.properties_of (ToolUse.input_schema ToolUse.print_summary_tool))
  ∧ ¬ (ToolUse.required_of (ToolUse.input_schema ToolUse.print_summary_tool)
         ⊆ ToolUse.properties_of (ToolUse.input_schema ToolUse.print_summary_tool))
  ∧ ToolUse.required_declared (ToolUse.input_schema ToolUse.print_summary_tool)
    = false
  ∧ ∀ tool, tool ∈ drop 1 ToolUse.all_tools →
      ToolUse.required_of (ToolUse.input_schema tool)
        ⊆ ToolUse.properties_of (ToolUse.input_schema tool)
      ∧ ToolUse.required_declared (ToolUse.input_schema tool) = true.
Proof.
  assert (Hin : "counterpoint"
      ∈ ToolUse.required_of (ToolUse.input_schema ToolUse.print_summary_tool)).
  { vm_compute. do 5 apply list_elem_of_further. apply list_elem_of_here. }
  assert (Hout : "counterpoint"
      ∉ ToolUse.properties_of (ToolUse.input_schema ToolUse.print_summary_tool)).
  { apply (bool_decide_unpack _). vm_compute. exact I. }
  repeat split; try (vm_compute; reflexivity); try done.
  - intros Hsub. apply Hout, Hsub, Hin.
  - intros k Hk. revert k Hk. apply Forall_forall.
    unfold ToolUse.required_declared in *. simpl in H.
    rewrite !elem_of_cons, elem_of_nil in H.
    destruct H as [->|[->|[->|[->|[]]]]];
      apply (bool_decide_unpack _); vm_compute; exact I.
  - simpl in H. rewrite !elem_of_cons, elem_of_nil in H.
    destruct H as [->|[->|[->|[->|[]]]]]; vm_compute; reflexivity.
Qed.

(** * Further properties *)

(** ** The upload loop: failures, accounting, coverage *)

Lemma length_zip3 {A B C} (a : list A) (b : list B) (c : list C) :
  length (zip3 a b c) = length a `min` (length b `min` length c).
Proof.
  revert b c. induction a as [|x a IH]; intros [|y b] [|z c]; simpl; try done.
  by rewrite IH.
Qed.

Lemma zip3_components {A B C} (a : list A) (b : list B) (c : list C) :
  length a = length b → length a = length c →
  (zip3 a b c).*1.*1 = a ∧ (zip3 a b c).*2 = c.
Proof.
  revert b c. induction a as [|x a IH]; intros [|y b] [|z c]; simpl; try done.
  intros [= Hb] [= Hc]. destruct (IH b c Hb Hc) as [H1 H2].
  split; f_equal; assumption.
Qed.

Lemma length_ids_batch descriptions i :
  length (Upload.ids_batch_of descriptions i)
  = length (Upload.descriptions_batch_of descriptions i).
Proof.
  rewrite length_descriptions_batch.
  unfold Upload.ids_batch_of, range, Upload.i_end_of, Upload.batch_size.
  rewrite length_fmap, length_seq. lia.
Qed.

Lemma to_upsert_zip3 descriptions i r :
  Upload.to_upsert_of descriptions i r
  = zip3 (Upload.ids_batch_of descriptions i) (embeddings r)
      (Upload.metadata_batch_of descriptions i).
Proof. unfold Upload.to_upsert_of. cbv zeta. by rewrite list_fmap_id. Qed.

Lemma concat_metadata_batches descriptions :
  concat (Upload.metadata_batch_of descriptions <$> Upload.batch_starts descriptions)
  = (λ d, ({[ "description" := d ]} : metadata)) <$> descriptions.
Proof.
  transitivity
    ((λ d, ({[ "description" := d ]} : metadata))
       <$> concat (Upload.descriptions_batch_of descriptions
                     <$> Upload.batch_starts descriptions)).
  - unfold Upload.metadata_batch_of.
    induction (Upload.batch_starts descriptions) as [|i starts IH]; [done|].
    simpl. rewrite fmap_app. f_equal. apply IH.
  - f_equal. apply (concat_slices descriptions Upload.batch_size).
    unfold Upload.batch_size. lia.
Qed.

Lemma upserted_app (l1 l2 : list event) :
  upserted (l1 ++ l2) = upserted l1 ++ upserted l2.
Proof. apply bind_app. Qed.

Lemma upserted_failed batch (errs : list exn) :
  upserted (errs ≫= failed_attempt batch) = [].
Proof. induction errs as [|e errs IH]; [done|]. simpl. apply IH. Qed.

Section upload_more.
Import Upload.
Variable svc : services.
Variable descriptions : list string.

Lemma upload_batch_done_full fuel i r0 st v st' :
  upload_batch fuel svc descriptions i r0 st = Done v st' →
  ∃ out, log st' = log st ++ batch_events descriptions i out
    ∧ requests st' = requests st + length out.1 + 2
    ∧ slept st' = slept st + 5 * length out.1
    ∧ ∃ n, vo_embed svc n (descriptions_batch_of descriptions i)
             "voyage-2" "document" = Ok out.2.
Proof.
  unfold upload_batch.
  destruct (retry_loop fuel _ _ _ _) as [[w st1]|] eqn:Hloop; [|done].
  apply retry_loop_exit in Hloop
    as (errs & r & _ & _ & Hok & -> & Hreq & Hsl & Hlog). simpl.
  destruct (index_upsert svc _ _) as [[]|e]; [|done].
  intros [= <- <-]. exists (errs, r). simpl. rewrite Hlog, Hreq, Hsl.
  split; [unfold batch_events; simpl; by rewrite <- !app_assoc|].
  split; [lia|]. split; [done|]. eauto.
Qed.

Lemma upload_for_done_full fuel starts : ∀ r0 st v st',
  for_each (upload_batch fuel svc descriptions) starts r0 st = Done v st' →
  ∃ outs, length outs = length starts
    ∧ log st' = log st ++ concat (zip_with (batch_events descriptions) starts outs)
    ∧ requests st' = requests st + sum_list ((λ out, length out.1 + 2) <$> outs)
    ∧ slept st' = slept st + 5 * sum_list ((λ out, length out.1) <$> outs)
    ∧ Forall2 (λ i out, ∃ n, vo_embed svc n (descriptions_batch_of descriptions i)
                               "voyage-2" "document" = Ok out.2) starts outs.
Proof.
  induction starts as [|i starts IH]; intros r0 st v st'; simpl.
  - intros [= <- <-]. exists []. simpl. rewrite app_nil_r.
    repeat split; try lia; try done; constructor.
  - destruct (upload_batch fuel _ _ _ _ _) as [v1 st1| |] eqn:Hb; try done.
    intros Hrest.
    apply upload_batch_done_full in Hb as (out & Hlog1 & Hreq1 & Hsl1 & Hemb).
    apply IH in Hrest as (outs & Hlen & Hlog & Hreq & Hsl & Hall).
    exists (out :: outs). simpl.
    split; [by rewrite Hlen|]. split; [by rewrite Hlog, Hlog1, <- app_assoc|].
    fold (fmap (M:=list) (λ out0 : list exn * EmbeddingsObject, length out0.1 + 2) outs).
    fold (fmap (M:=list) (λ out0 : list exn * EmbeddingsObject, length out0.1) outs).
    split; [lia|]. split; [lia|]. by constructor.
Qed.

End upload_more.

Lemma upserted_batches descriptions starts : ∀ outs,
  upserted (concat (zip_with (batch_events descriptions) starts outs))
  = concat (zip_with (λ i (out : list exn * EmbeddingsObject),
                        Upload.to_upsert_of descriptions i out.2) starts outs).
Proof.
  induction starts as [|i starts IH]; intros [|out outs]; try done.
  cbn [zip_with concat]. rewrite upserted_app, IH. f_equal.
  unfold batch_events. rewrite upserted_app, upserted_failed. simpl.
  by rewrite app_nil_r.
Qed.

Lemma upserted_aborted descriptions i out e :
  upserted (aborted_batch_events descriptions i out e) = [].
Proof.
  unfold aborted_batch_events. by rewrite upserted_app, upserted_failed.
Qed.

Lemma refusing_one_vector_per_text : one_vector_per_text refusing.
Proof. intros n texts model it r [= <-]. simpl. by rewrite length_fmap. Qed.

Lemma flaky_one_vector_per_text : one_vector_per_text flaky.
Proof.
  intros [|[|n]] texts model it r; simpl; try done.
  intros [= <-]. simpl. by rewrite length_fmap.
Qed.

(** X1. The upload loop raises only when an upsert raises, and then stops
    at once: the error is what [index.upsert] answered when called with the
    triples of some batch, the batches before that one have been embedded
    and upserted in full, the index having accepted the triples of each, and
    stay uploaded (nothing is rolled back), the refused batch has been
    embedded, and no later batch is touched.  An exception of the embedding
    call never leaves the loop, and [res] is never read unbound. *)
Theorem upload_stops_at_refused_upsert (svc : services)
    (descriptions : list string) (fuel : nat) (st st' : state) (e : exn) :
  Upload.upload_loop fuel svc descriptions st = Raised e st' →
  ∃ k i outs out,
    Upload.batch_starts descriptions !! k = Some i
    ∧ length outs = k
    ∧ log st' = log st
        ++ concat (zip_with (batch_events descriptions)
                     (take k (Upload.batch_starts descriptions)) outs)
        ++ aborted_batch_events descriptions i out e
    ∧ last (log st')
      = Some (UpsertRequest (Upload.to_upsert_of descriptions i out.2) (Raise e))
    ∧ upserted (log st')
      = upserted (log st)
        ++ concat (zip_with (λ i' (out' : list exn * EmbeddingsObject),
                               Upload.to_upsert_of descriptions i' out'.2)
                     (take k (Upload.batch_starts descriptions)) outs)
    ∧ run_answers svc descriptions (requests st)
        (take k (Upload.batch_starts descriptions)) outs
    ∧ batch_answers svc descriptions (requests st + requests_of outs) i out
        (Raise e).
Proof.
  intros Hrun.
  apply upload_for_raised_answers in Hrun
    as (k & i & outs & out & Hk & Hlen & Hans & Hrefused & Hlog).
  exists k, i, outs, out.
  split; [done|]. split; [done|]. split; [done|]. split; [|split; [|done]].
  - rewrite Hlog. unfold aborted_batch_events. by rewrite !last_app.
  - rewrite Hlog, !upserted_app, upserted_batches, upserted_aborted.
    by rewrite app_nil_r.
Qed.

Lemma upload_stops_at_refused_upsert_witness :
  match Upload.upload_loop 1 refusing sample_descriptions initial with
  | Raised e st' =>
      ∃ k i outs out,
        Upload.batch_starts sample_descriptions !! k = Some i
        ∧ length outs = k
        ∧ log st' = log initial
            ++ concat (zip_with (batch_events sample_descriptions)
                         (take k (Upload.batch_starts sample_descriptions)) outs)
            ++ aborted_batch_events sample_descriptions i out e
        ∧ last (log st')
          = Some (UpsertRequest (Upload.to_upsert_of sample_descriptions i out.2)
                    (Raise e))
        ∧ upserted (log st')
          = upserted (log initial)
            ++ concat (zip_with (λ i' (out' : list exn * EmbeddingsObject),
                                   Upload.to_upsert_of sample_descriptions i' out'.2)
                         (take k (Upload.batch_starts sample_descriptions)) outs)
        ∧ run_answers refusing sample_descriptions (requests initial)
            (take k (Upload.batch_starts sample_descriptions)) outs
        ∧ batch_answers refusing sample_descriptions
            (requests initial + requests_of outs) i out (Raise e)
  | _ => False
  end.
Proof.
  assert (Hkind : is_raised (Upload.upload_loop 1 refusing sample_descriptions
                               initial) = true) by (vm_compute; reflexivity).
  destruct (Upload.upload_loop 1 refusing sample_descriptions initial)
    as [v st'|e st'|] eqn:Hrun.
  - discriminate Hkind.
  - exact (upload_stops_at_refused_upsert _ _ _ _ _ _ Hrun).
  - discriminate Hkind.
Defined.

(** X2. In a completed upload the requests and the waiting add up: the
    loop has sent one request per failed embedding attempt plus two per
    batch (the answered embedding and the upsert), and has slept exactly 5
    seconds per failed attempt and not otherwise. *)
Theorem upload_accounting (svc : services) (descriptions : list string)
    (fuel : nat) (st st' : state) (v : option EmbeddingsObject) :
  Upload.upload_loop fuel svc descriptions st = Done v st' →
  ∃ outs : list (list exn * EmbeddingsObject),
    length outs = length (Upload.batch_starts descriptions)
    ∧ log st' = log st
        ++ concat (zip_with (batch_events descriptions)
                     (Upload.batch_starts descriptions) outs)
    ∧ requests st'
      = requests st + sum_list ((λ out, length out.1) <$> outs)
        + 2 * length (Upload.batch_starts descriptions)
    ∧ slept st' = slept st + 5 * sum_list ((λ out, length out.1) <$> outs).
Proof.
  intros Hrun.
  apply upload_for_done_full in Hrun as (outs & Hlen & Hlog & Hreq & Hsl & _).
  exists outs. repeat split; try done. rewrite Hreq, <- Hlen. clear.
  induction outs as [|out outs IH]; simpl; [lia|].
  fold (fmap (M:=list) (λ out0 : list exn * EmbeddingsObject, length out0.1 + 2) outs).
  fold (fmap (M:=list) (λ out0 : list exn * EmbeddingsObject, length out0.1) outs).
  lia.
Qed.

Lemma upload_accounting_witness :
  match Upload.upload_loop 3 flaky sample_descriptions initial with
  | Done _ st' =>
      ∃ outs : list (list exn * EmbeddingsObject),
        length outs = length (Upload.batch_starts sample_descriptions)
        ∧ log st' = log initial
            ++ concat (zip_with (batch_events sample_descriptions)
                         (Upload.batch_starts sample_descriptions) outs)
        ∧ requests st'
          = requests initial + sum_list ((λ out, length out.1) <$> outs)
            + 2 * length (Upload.batch_starts sample_descriptions)
        ∧ slept st' = slept initial + 5 * sum_list ((λ out, length out.1) <$> outs)
  | _ => False
  end.
Proof.
  assert (Hkind : is_done (Upload.upload_loop 3 flaky sample_descriptions
                             initial) = true) by (vm_compute; reflexivity).
  destruct (Upload.upload_loop 3 flaky sample_descriptions initial)
    as [v st'|e st'|] eqn:Hrun.
  - exact (upload_accounting _ _ _ _ _ _ Hrun).
  - discriminate Hkind.
  - discriminate Hkind.
Defined.

Example upload_accounting_sample :
  match Upload.upload_loop 3 flaky sample_descriptions initial with
  | Done _ st' => requests st' = 8 ∧ slept st' = 10
  | _ => False
  end.
Proof. vm_compute. done. Qed.

(** X3. When the embedding service returns one vector per text, a completed
    upload has upserted every description exactly once and in order: the
    ids of the accepted triples are description_0 .. description_{n-1} and
    their metadata are {'description': d} for the descriptions d in list
    order.  The accepted triples are, batch by batch, what [index.upsert]
    was called with and accepted: the triples built from the batch and from
    what the embedding service returned for it. *)
Theorem upload_covers_descriptions (svc : services)
    (descriptions : list string) (fuel : nat) (st' : state)
    (v : option EmbeddingsObject) :
  one_vector_per_text svc →
  Upload.upload_loop fuel svc descriptions initial = Done v st' →
  length (upserted (log st')) = length descriptions
  ∧ (upserted (log st')).*1.*1 = Upload.id_of <$> seq 0 (length descriptions)
  ∧ (upserted (log st')).*2
    = (λ d, ({[ "description" := d ]} : metadata)) <$> descriptions
  ∧ ∃ outs,
      length outs = length (Upload.batch_starts descriptions)
      ∧ run_answers svc descriptions (requests initial)
          (Upload.batch_starts descriptions) outs
      ∧ upserted (log st')
        = concat (zip_with (λ i (out : list exn * EmbeddingsObject),
                              Upload.to_upsert_of descriptions i out.2)
                    (Upload.batch_starts descriptions) outs).
Proof.
  intros Hone Hrun.
  assert (Hanswers : ∃ outs,
      length outs = length (Upload.batch_starts descriptions)
      ∧ run_answers svc descriptions (requests initial)
          (Upload.batch_starts descriptions) outs
      ∧ upserted (log st')
        = concat (zip_with (λ i (out : list exn * EmbeddingsObject),
                              Upload.to_upsert_of descriptions i out.2)
                    (Upload.batch_starts descriptions) outs)).
  { apply upload_for_done_answers in Hrun as (outs & Hlen & Hans & Hlog).
    exists outs. split; [done|]. split; [done|].
    simpl in Hlog. by rewrite Hlog, upserted_batches. }
  match goal with
  | |- ?A ∧ ?B ∧ ?C ∧ _ =>
      cut (A ∧ B ∧ C); [intros (? & ? & ?); by repeat split|]
  end.
  clear Hanswers.
  apply upload_for_done_full in Hrun as (outs & Hlen & Hlog & _ & _ & Hemb).
  simpl in Hlog. rewrite Hlog, upserted_batches. clear Hlog.
  assert (Hids : ∀ starts outs',
    Forall2 (λ i (out : list exn * EmbeddingsObject),
               ∃ n, vo_embed svc n (Upload.descriptions_batch_of descriptions i)
                      "voyage-2" "document" = Ok out.2) starts outs' →
    (concat (zip_with (λ i (out : list exn * EmbeddingsObject),
                         Upload.to_upsert_of descriptions i out.2) starts outs')).*1.*1
    = concat (Upload.ids_batch_of descriptions <$> starts)
    ∧ (concat (zip_with (λ i (out : list exn * EmbeddingsObject),
                           Upload.to_upsert_of descriptions i out.2) starts outs')).*2
      = concat (Upload.metadata_batch_of descriptions <$> starts)).
  { clear Hemb Hlen outs. intros starts outs' Hall.
    induction Hall as [|i out starts outs' [n Hn] _ [IH1 IH2]]; [done|].
    rewrite !fmap_cons. cbn [zip_with concat]. rewrite !fmap_app, IH1, IH2.
    apply Hone in Hn.
    destruct (zip3_components (Upload.ids_batch_of descriptions i)
                (embeddings out.2) (Upload.metadata_batch_of descriptions i))
      as [H1 H2].
    - by rewrite Hn, length_ids_batch.
    - unfold Upload.metadata_batch_of. by rewrite length_fmap, length_ids_batch.
    - rewrite to_upsert_zip3. split; f_equal; assumption. }
  destruct (Hids _ _ Hemb) as [Hi Hm].
  pose proof (concat_metadata_batches descriptions) as Hmd.
  split; [|split].
  - rewrite <- (length_fmap snd), Hm, Hmd. by rewrite length_fmap.
  - rewrite Hi. apply concat_ids_batches.
  - by rewrite Hm, Hmd.
Qed.

Lemma upload_covers_descriptions_witness :
  match Upload.upload_loop 3 flaky sample_descriptions initial with
  | Done _ st' =>
      length (upserted (log st')) = length sample_descriptions
      ∧ (upserted (log st')).*1.*1
        = Upload.id_of <$> seq 0 (length sample_descriptions)
      ∧ (upserted (log st')).*2
        = (λ d, ({[ "description" := d ]} : metadata)) <$> sample_descriptions
      ∧ ∃ outs,
          length outs = length (Upload.batch_starts sample_descriptions)
          ∧ run_answers flaky sample_descriptions (requests initial)
              (Upload.batch_starts sample_descriptions) outs
          ∧ upserted (log st')
            = concat (zip_with (λ i (out : list exn * EmbeddingsObject),
                                  Upload.to_upsert_of sample_descriptions i out.2)
                        (Upload.batch_starts sample_descriptions) outs)
  | _ => False
  end.
Proof.
  assert (Hkind : is_done (Upload.upload_loop 3 flaky sample_descriptions
                             initial) = true) by (vm_compute; reflexivity).
  destruct (Upload.upload_loop 3 flaky sample_descriptions initial)
    as [v st'|e st'|] eqn:Hrun.
  - exact (upload_covers_descriptions _ _ _ _ _ flaky_one_vector_per_text Hrun).
  - discriminate Hkind.
  - discriminate Hkind.
Defined.

(** X4. The upload never compares the number of returned embeddings with
    the number of texts: a batch yields as many triples as the shorter of
    the two, a description at or beyond the number of embeddings is in no
    triple, and the batch still completes when the upsert is accepted. *)
Theorem short_answer_drops_tail (svc : services) (descriptions : list string)
    (i : nat) (r : EmbeddingsObject) :
  length (Upload.to_upsert_of descriptions i r)
  = length (Upload.descriptions_batch_of descriptions i)
      `min` length (embeddings r)
  ∧ (∀ j, length (embeddings r) ≤ j →
       Upload.to_upsert_of descriptions i r !! j = None)
  ∧ (∀ r0 st,
       vo_embed svc (requests st) (Upload.descriptions_batch_of descriptions i)
         "voyage-2" "document" = Ok r →
       index_upsert svc (S (requests st)) (Upload.to_upsert_of descriptions i r)
         = Ok () →
       ∃ st', Upload.upload_batch 1 svc descriptions i r0 st = Done (Some r) st').
Proof.
  split; [|split].
  - rewrite to_upsert_zip3, length_zip3, length_ids_batch.
    unfold Upload.metadata_batch_of. rewrite length_fmap. lia.
  - intros j Hj. apply lookup_ge_None_2.
    rewrite to_upsert_zip3, length_zip3. lia.
  - intros r0 st Hembed Hupsert. unfold Upload.upload_batch.
    rewrite retry_loop_step. unfold attempt. rewrite Nat.add_0_r, Hembed.
    simpl. rewrite Hupsert. eauto.
Qed.

Lemma short_answer_drops_tail_witness :
  ∃ st', Upload.upload_batch 1 terse sample_descriptions 0 None initial
         = Done (Some {| embeddings := [[1%Q]] |}) st'.
Proof.
  pose proof (short_answer_drops_tail terse sample_descriptions 0
                {| embeddings := [[1%Q]] |}) as (_ & _ & Hdone).
  exact (Hdone None initial eq_refl eq_refl).
Defined.

(** ** Prompts *)

Lemma append_assoc (s1 s2 s3 : string) : (s1 +:+ s2) +:+ s3 = s1 +:+ s2 +:+ s3.
Proof.
  induction s1 as [|c s1 IH]; [done|].
  change (String c ((s1 +:+ s2) +:+ s3) = String c (s1 +:+ s2 +:+ s3)).
  by rewrite IH.
Qed.

Lemma append_empty_r (s : string) : s +:+ "" = s.
Proof.
  induction s as [|c s IH]; [done|].
  change (String c (s +:+ "") = String c s). by rewrite IH.
Qed.

Lemma occurs_in_refl s : occurs_in s s.
Proof. exists "", "". by rewrite append_empty_r. Qed.

Lemma occurs_in_append s t a b : occurs_in s t → occurs_in s (a +:+ t +:+ b).
Proof.
  intros (pre & post & ->). exists (a +:+ pre), (post +:+ b).
  by rewrite !append_assoc.
Qed.

Lemma occurs_in_trans s t u : occurs_in s t → occurs_in t u → occurs_in s u.
Proof. intros Hst (pre & post & ->). by apply occurs_in_append. Qed.

Lemma occurs_in_concat sep (l : list string) i x :
  l !! i = Some x → occurs_in x (String.concat sep l).
Proof.
  revert i. induction l as [|y l IH]; intros [|i] Hi; try done; simpl in Hi.
  - injection Hi as ->. destruct l as [|z l]; simpl.
    + apply occurs_in_refl.
    + exists "", (sep +:+ String.concat sep (z :: l)). done.
  - destruct l as [|z l]; [done|].
    change (String.concat sep (y :: z :: l))
      with (y +:+ sep +:+ String.concat sep (z :: l)).
    apply (occurs_in_trans _ (String.concat sep (z :: l))); [by apply (IH i)|].
    exists (y +:+ sep), "". by rewrite append_empty_r, append_assoc.
Qed.

Lemma format_results_items (extracted : list string) (i : nat) (r : string) :
  extracted !! i = Some r →
  occurs_in
    ("<item index=" +:+ dq +:+ str_of_nat (i + 1) +:+ dq +:+ ">" +:+ nl
     +:+ "<page_content>" +:+ nl +:+ r +:+ nl +:+ "</page_content>" +:+ nl
     +:+ "</item>")
    (Rag.format_results extracted).
Proof.
  intros Hi. unfold Rag.format_results. cbv zeta.
  change (nl +:+ "<search_results>" +:+ nl
          +:+ String.concat nl (imap Rag.format_item extracted)
          +:+ nl +:+ "</search_results>")
    with ((nl +:+ "<search_results>" +:+ nl)
          +:+ String.concat nl (imap Rag.format_item extracted)
          +:+ (nl +:+ "</search_results>")).
  apply occurs_in_append, (occurs_in_concat _ _ i).
  rewrite list_lookup_imap, Hi. reflexivity.
Qed.

(** X5. Every extracted text reaches the formatted search results: the text
    at position [i] occurs in the output wrapped as the item numbered [i+1],
    between page_content tags, and the output opens and closes with the
    search_results tags. *)
Theorem format_results_carries_items (extracted : list string) (i : nat)
    (r : string) :
  extracted !! i = Some r →
  occurs_in
    ("<item index=" +:+ dq +:+ str_of_nat (i + 1) +:+ dq +:+ ">" +:+ nl
     +:+ "<page_content>" +:+ nl +:+ r +:+ nl +:+ "</page_content>" +:+ nl
     +:+ "</item>")
    (Rag.format_results extracted)
  ∧ (∃ pre, Rag.format_results extracted = pre +:+ nl +:+ "</search_results>")
  ∧ (∃ post, Rag.format_results extracted
             = nl +:+ "<search_results>" +:+ nl +:+ post).
Proof.
  intros Hi. split; [by apply format_results_items|].
  split.
  - exists (nl +:+ "<search_results>" +:+ nl
            +:+ String.concat nl (imap Rag.format_item extracted)).
    unfold Rag.format_results. cbv zeta. by rewrite !append_assoc.
  - unfold Rag.format_results. cbv zeta. eauto.
Qed.

Lemma format_results_carries_items_witness :
  occurs_in
    ("<item index=" +:+ dq +:+ str_of_nat (1 + 1) +:+ dq +:+ ">" +:+ nl
     +:+ "<page_content>" +:+ nl +:+ "a prism" +:+ nl +:+ "</page_content>" +:+ nl
     +:+ "</item>")
    (Rag.format_results ["a kite"; "a prism"]).
Proof.
  apply (format_results_carries_items ["a kite"; "a prism"] 1). reflexivity.
Defined.

(** X6. The formatted search results do not escape their items: a single
    text that contains the closing and opening tags of an item formats to
    the same output as two separate texts, so the formatting is not
    injective. *)
Theorem format_results_does_not_escape :
  (∀ a b : string,
     Rag.format_results [a +:+ item_break 2 +:+ b] = Rag.format_results [a; b])
  ∧ ¬ Inj (=) (=) Rag.format_results.
Proof.
  assert (Heq : ∀ a b : string,
    Rag.format_results [a +:+ item_break 2 +:+ b] = Rag.format_results [a; b]).
  { intros a b. unfold Rag.format_results, Rag.format_item, item_break.
    cbn [imap String.concat Nat.add]. unfold compose.
    change (str_of_nat (0 + 1)) with "1". change (str_of_nat (1 + 1)) with "2".
    change (str_of_nat 2) with "2".
    rewrite !append_assoc. reflexivity. }
  split; [done|]. intros Hinj.
  specialize (Hinj _ _ (Heq "a" "b")). discriminate Hinj.
Qed.

(** ** The keyword cells and the answer cell *)

(** X7. The keyword cells send exactly one completion request, whose prompt
    carries the question verbatim and ends with an opening brace; the text
    that is parsed is the completion with that brace put back in front, and
    it is printed before parsing, so it is shown even when it is not JSON.
    The cells yield the keywords exactly when the parsed value is an object
    with a 'keywords' key; a parsed value that is not an object raises a
    TypeError and an object without the key a KeyError. *)
Theorem extract_keywords_outcome (svc : services) (h : host)
    (question : string) (st : state) :
  Rag.extract_keywords svc h question st ≠ OutOfFuel
  ∧ (∃ pre, Rag.create_keyword_prompt question
            = pre +:+ question +:+ nl +:+ nl
              +:+ "Output your keywords as a JSON that has one property "
              +:+ dq +:+ "keywords" +:+ dq
              +:+ " that is a list of strings. Only output valid JSON."
              +:+ nl +:+ nl +:+ "Assistant:{")
  ∧ (∀ st', state_of (Rag.extract_keywords svc h question st) = Some st' →
       requests st' = S (requests st)
       ∧ questions (log st')
         = questions (log st)
           ++ [AskCompletion "claude-2.1" (Rag.create_keyword_prompt question) 1024])
  ∧ (∀ completion st',
       completions_create svc (requests st) "claude-2.1"
         (Rag.create_keyword_prompt question) 1024 = Ok completion →
       state_of (Rag.extract_keywords svc h question st) = Some st' →
       Print ("{" +:+ completion) ∈ log st')
  ∧ (∀ keywords_list st',
       Rag.extract_keywords svc h question st = Done keywords_list st' ↔
       ∃ completion data,
         completions_create svc (requests st) "claude-2.1"
           (Rag.create_keyword_prompt question) 1024 = Ok completion
         ∧ json_loads h ("{" +:+ completion) = Ok (VDict data)
         ∧ dict_get data "keywords" = Some keywords_list
         ∧ st' = emit (Print (py_str h keywords_list))
                   (emit (Print ("{" +:+ completion))
                      (sent (CompletionRequest "claude-2.1"
                               (Rag.create_keyword_prompt question) 1024
                               (Ok completion)) st)))
  ∧ (∀ completion v,
       completions_create svc (requests st) "claude-2.1"
         (Rag.create_keyword_prompt question) 1024 = Ok completion →
       json_loads h ("{" +:+ completion) = Ok v →
       (∀ data, v ≠ VDict data) →
       ∃ st', Rag.extract_keywords svc h question st = Raised TypeError st').
Proof.
  unfold Rag.extract_keywords, Rag.get_completion.
  split.
  { destruct (completions_create svc _ _ _ _) as [c|e]; [|done].
    destruct (json_loads h _) as [v|e]; [|done].
    by destruct (getitem v "keywords"). }
  split.
  { exists (nl +:+ nl +:+ "Human: Given a question, generate a list of 5 very diverse search keywords that can be used to search for products on Amazon."
            +:+ nl +:+ nl +:+ "The question is: ").
    unfold Rag.create_keyword_prompt. by rewrite !append_assoc. }
  split.
  { intros st'. destruct (completions_create svc _ _ _ _) as [c|e].
    - destruct (json_loads h _) as [v|e];
        [destruct (getitem v "keywords")|]; simpl; intros [= <-]; simpl;
        rewrite ?questions_app; simpl; by rewrite ?app_nil_r.
    - simpl. intros [= <-]. simpl. by rewrite questions_app. }
  split.
  { intros completion st' ->.
    destruct (json_loads h _) as [v|e];
      [destruct (getitem v "keywords")|]; simpl; intros [= <-]; simpl;
      rewrite ?elem_of_app, !list_elem_of_singleton; auto. }
  split.
  { intros keywords_list st'. split.
    - destruct (completions_create svc _ _ _ _) as [c|e]; [|done].
      destruct (json_loads h _) as [v|e] eqn:Hj; [|done].
      destruct v as [| | | | |data]; try done. simpl.
      destruct (dict_get data "keywords") as [k|] eqn:Hk; [|done].
      intros [= <- <-]. eauto 10.
    - intros (completion & data & -> & -> & Hk & ->). simpl. by rewrite Hk. }
  intros completion v -> -> Hv.
  destruct v as [| | | | |data]; simpl; eauto. by destruct (Hv data).
Qed.

Lemma extract_keywords_outcome_witness :
  ∃ st', Rag.extract_keywords steady sample_host "What to give?" initial
         = Raised JSONDecodeError st'
    ∧ Print ("{" +:+ "'keywords': ['kites', 'optics']}") ∈ log st'.
Proof.
  pose proof (extract_keywords_outcome steady sample_host "What to give?" initial)
    as (_ & _ & _ & Hshown & _).
  eexists. split; [reflexivity|].
  apply Hshown; reflexivity.
Defined.

(** X8. The answer cell sends one completion request whose prompt carries
    every retrieved text, the text at position [i] as the item numbered
    [i+1], and the question between question tags; the answer is printed
    when the request is answered and nothing is printed when it raises. *)
Theorem answer_cell_spec (svc : services) (results_list : list string)
    (question : string) (st : state) :
  RagRun.answer_cell svc results_list question st ≠ OutOfFuel
  ∧ (∀ answer st',
       RagRun.answer_cell svc results_list question st = Done answer st' ↔
       completions_create svc (requests st) "claude-2.1"
         (Rag.create_answer_prompt results_list question) 1024 = Ok answer
       ∧ st' = emit (Print answer)
                 (sent (CompletionRequest "claude-2.1"
                          (Rag.create_answer_prompt results_list question) 1024
                          (Ok answer)) st))
  ∧ (∀ e st',
       RagRun.answer_cell svc results_list question st = Raised e st' ↔
       completions_create svc (requests st) "claude-2.1"
         (Rag.create_answer_prompt results_list question) 1024 = Raise e
       ∧ st' = sent (CompletionRequest "claude-2.1"
                       (Rag.create_answer_prompt results_list question) 1024
                       (Raise e)) st)
  ∧ (∀ i r, results_list !! i = Some r →
       occurs_in
         ("<item index=" +:+ dq +:+ str_of_nat (i + 1) +:+ dq +:+ ">" +:+ nl
          +:+ "<page_content>" +:+ nl +:+ r +:+ nl +:+ "</page_content>" +:+ nl
          +:+ "</item>")
         (Rag.create_answer_prompt results_list question))
  ∧ occurs_in ("<question>" +:+ question +:+ "</question>")
      (Rag.create_answer_prompt results_list question).
Proof.
  unfold RagRun.answer_cell, Rag.get_completion.
  split; [by destruct (completions_create svc _ _ _ _)|].
  split.
  { intros answer st'. destruct (completions_create svc _ _ _ _) as [c|e].
    - split; [by intros [= <- <-]|by intros [[= <-] ->]].
    - split; [done|by intros [[=] _]]. }
  split.
  { intros e st'. destruct (completions_create svc _ _ _ _) as [c|e'].
    - split; [done|by intros [[=] _]].
    - split; [by intros [= <- <-]|by intros [[= <-] ->]]. }
  split.
  { intros i r Hi. unfold Rag.create_answer_prompt.
    eapply occurs_in_trans; [by apply format_results_items|].
    eexists (nl +:+ nl +:+ "Human: "), _. reflexivity. }
  unfold Rag.create_answer_prompt.
  exists (nl +:+ nl +:+ "Human: " +:+ Rag.format_results results_list
          +:+ " Using the search results provided within the <search_results></search_results> tags, please answer the following question "),
    (". Do not reference the search results in your answer."
     +:+ nl +:+ nl +:+ "Assistant:").
  rewrite !append_assoc. reflexivity.
Qed.

Lemma answer_cell_spec_witness :
  occurs_in
    ("<item index=" +:+ dq +:+ str_of_nat (0 + 1) +:+ dq +:+ ">" +:+ nl
     +:+ "<page_content>" +:+ nl +:+ "a kite" +:+ nl +:+ "</page_content>" +:+ nl
     +:+ "</item>")
    (Rag.create_answer_prompt ["a kite"; "a prism"] "What to give?").
Proof.
  apply (answer_cell_spec steady ["a kite"; "a prism"] "What to give?" initial).
  reflexivity.
Defined.

(** ** The PDF run *)

(** X9. The PDF notebook sends nothing when the file cannot be read.  When
    it can, it sends exactly one message request, without tools, that
    carries the encoded file and the prompt, and it prints the text of the
    first content block of the answer: an answer without content raises an
    IndexError, an answer whose first block is a tool invocation an
    AttributeError, and blocks after the first are ignored. *)
Theorem pdf_run_spec (svc : services) (h : host) (st : state) :
  PdfRun.run svc h st ≠ OutOfFuel
  ∧ (∀ e, fs_read h Pdf.file_name = Raise e → PdfRun.run svc h st = Raised e st)
  ∧ (∀ binary_data st',
       fs_read h Pdf.file_name = Ok binary_data →
       state_of (PdfRun.run svc h st) = Some st' →
       requests st' = S (requests st)
       ∧ questions (log st')
         = questions (log st)
           ++ [AskMessages
                 {| req_model := "claude-3-5-sonnet-20241022";
                    req_max_tokens := 2048; req_tools := [];
                    req_tool_choice := None;
                    req_messages := PdfRun.messages (b64encode h binary_data) |}])
  ∧ (∀ binary_data response,
       fs_read h Pdf.file_name = Ok binary_data →
       messages_create svc (requests st)
         {| req_model := "claude-3-5-sonnet-20241022";
            req_max_tokens := 2048; req_tools := []; req_tool_choice := None;
            req_messages := PdfRun.messages (b64encode h binary_data) |}
       = Ok response →
       match content response with
       | [] => ∃ st', PdfRun.run svc h st = Raised IndexError st'
       | TextBlock text :: _ =>
           ∃ st', PdfRun.run svc h st = Done text st'
                  ∧ last (log st') = Some (Print text)
       | ToolUseBlock _ _ _ :: _ =>
           ∃ st', PdfRun.run svc h st = Raised (AttributeError "text") st'
       end).
Proof.
  unfold PdfRun.run, Pdf.read_pdf, Pdf.get_completion, Pdf.MODEL_NAME.
  split.
  { destruct (fs_read h _) as [data|e]; [|done].
    destruct (messages_create svc _ _) as [[[|[text|id name input] rest]]|e];
      done. }
  split; [by intros e ->|]. split.
  { intros data st' ->.
    destruct (messages_create svc _ _) as [[[|[text|id name input] rest]]|e];
      simpl; intros [= <-]; simpl; rewrite ?questions_app; simpl;
      by rewrite ?app_nil_r. }
  intros data [[|[text|id name input] rest]] -> ->; simpl; eauto.
  eexists. split; [done|]. simpl. by rewrite last_snoc.
Qed.

Lemma pdf_run_spec_witness : PdfRun.run steady sample_host initial
  = Raised (FileNotFoundError Pdf.file_name) initial.
Proof. apply (pdf_run_spec steady sample_host initial). reflexivity. Defined.

(** ** The cells of the structured-JSON notebook *)

Lemma handle_of_never_raises ex h response nb st :
  ∃ nb' st', ToolUse.handle_of ex h response nb st = Done nb' st'.
Proof.
  destruct ex; simpl;
    [unfold ToolUse.handle1 | unfold ToolUse.handle2 | unfold ToolUse.handle3
    | unfold ToolUse.handle4 | unfold ToolUse.handle5];
    rewrite extract_first; simpl;
    match goal with |- context [truthy ?v] => destruct (truthy v) end; eauto.
Qed.

Lemma ask_outcome svc h req ex nb st :
  ToolUse.ask svc h req (ToolUse.handle_of ex) nb st =
  match messages_create svc (requests st) req with
  | Ok response =>
      ToolUse.handle_of ex h response nb (sent (MessagesCall req (Ok response)) st)
  | Raise e => Raised e (sent (MessagesCall req (Raise e)) st)
  end.
Proof.
  unfold ToolUse.ask, ToolUse.create. by destruct (messages_create svc _ _).
Qed.

Lemma request_of_shape ex paragraphs :
  ∃ tool,
    req_model (ToolUse.request_of ex paragraphs) = "claude-3-haiku-20240307"
    ∧ req_max_tokens (ToolUse.request_of ex paragraphs) = 4096
    ∧ req_tools (ToolUse.request_of ex paragraphs) = [tool]
    ∧ getitem tool "name" = Ok (VStr (ToolUse.tool_name_of ex))
    ∧ (req_tool_choice (ToolUse.request_of ex paragraphs) ≠ None
       ↔ ex = ToolUse.Ex5).
Proof.
  destruct ex; eexists; (split; [reflexivity|]); (split; [reflexivity|]);
    (split; [reflexivity|]); (split; [reflexivity|]); simpl; try done;
    split; try done; by intros [].
Qed.

Lemma handle_of_keeps_count ex h response nb s nb' st' :
  ToolUse.handle_of ex h response nb s = Done nb' st' →
  requests st' = requests s ∧ questions (log st') = questions (log s).
Proof.
  destruct ex; simpl;
    [unfold ToolUse.handle1 | unfold ToolUse.handle2 | unfold ToolUse.handle3
    | unfold ToolUse.handle4 | unfold ToolUse.handle5];
    rewrite extract_first; simpl;
    match goal with |- context [truthy ?v] => destruct (truthy v) end;
    intros [= <- <-]; simpl; rewrite ?questions_app; simpl;
    by rewrite ?app_nil_r.
Qed.

(** The handling of an answer in a kernel: the last cell with the name
    unbound and a non-empty input raises; in every other case the kernel
    does what the cell does on the values. *)
Lemma handle_in_outcome ex h response k st :
  (ex = ToolUse.Ex5 ∧ ToolUse.classification_bound k = false
   ∧ truthy (from_option VDict VNone
               (first_selected "print_all_characteristics" (content response)))
     = true
   ∧ ToolUse.handle_in ex h response k st
     = Raised (NameError "json_classification")
         (emit (Print "Characteristics (JSON):") st))
  ∨ (∃ k' st',
       ToolUse.handle_in ex h response k st = Done k' st'
       ∧ ToolUse.handle_of ex h response (ToolUse.vars k) st
         = Done (ToolUse.vars k') st'
       ∧ ToolUse.classification_bound k'
         = match ex with
           | ToolUse.Ex4 => true
           | _ => ToolUse.classification_bound k
           end
       ∧ (ex = ToolUse.Ex5 → ToolUse.classification_bound k = false →
          truthy (from_option VDict VNone
                    (first_selected "print_all_characteristics"
                       (content response))) = false)).
Proof.
  destruct (handle_of_never_raises ex h response (ToolUse.vars k) st)
    as (nb' & st' & Hd).
  destruct ex; try (right; unfold ToolUse.handle_in; rewrite Hd;
                    destruct (ToolUse.classification_bound k);
                    eexists _, _; by repeat split).
  destruct (ToolUse.classification_bound k) eqn:Hb.
  - right. unfold ToolUse.handle_in. rewrite Hb, Hd.
    eexists _, _. by repeat split.
  - unfold ToolUse.handle_in. rewrite Hb. clear Hd.
    simpl. unfold ToolUse.handle5. rewrite extract_first.
    destruct (truthy (from_option VDict VNone
                (first_selected "print_all_characteristics" (content response))))
      eqn:Ht.
    + left. by repeat split.
    + right. eexists _, _. simpl. rewrite Ht. by repeat split.
Qed.

(** With [json_classification] bound, a cell in the kernel is the cell on
    the values of the variables. *)
Lemma cell_in_bound ex svc h k st :
  ToolUse.classification_bound k = true →
  ToolUse.cell_in ex svc h k st
  = match cell_of ex svc h (ToolUse.vars k) st with
    | Done nb' st' =>
        Done {| ToolUse.vars := nb'; ToolUse.classification_bound := true |} st'
    | Raised e st' => Raised e st'
    | OutOfFuel => OutOfFuel
    end.
Proof.
  intros Hb. unfold ToolUse.cell_in.
  destruct ex; simpl;
    [unfold ToolUse.cell1; destruct (fetch_paragraphs h ToolUse.url); [|done]
    | unfold ToolUse.cell2 | unfold ToolUse.cell3 | unfold ToolUse.cell4
    | unfold ToolUse.cell5];
    unfold ToolUse.ask; simpl;
    (destruct (ToolUse.create svc _ st) as [response st1|e st1|]; [|done..]);
    unfold ToolUse.handle_in; rewrite ?Hb; simpl;
    match goal with
    | |- context [?hd h response (ToolUse.vars k) st1] =>
        destruct (hd h response (ToolUse.vars k) st1)
    end; rewrite ?Hb; done.
Qed.

(** X10. A cell of the structured-JSON notebook, run in a kernel, raises in
    three cases only: the article of the first cell cannot be fetched
    (nothing is sent then); its message request raises; or the last cell has
    found a non-empty tool input while [json_classification] is unbound,
    the fourth cell not having got past its request in this kernel: it then
    raises NameError after printing the header line.  In every other case
    the cell completes, whatever the answer holds.  Each cell sends exactly
    one request, to the same model, declaring exactly one tool, and the
    name of that tool is the name its extraction loop looks for; only the
    last cell forces the tool.  The fourth cell leaves
    [json_classification] bound, no other cell binds it. *)
Theorem cell_outcome (ex : ToolUse.example) (svc : services) (h : host)
    (k : ToolUse.kernel) (st : state) :
  ToolUse.cell_in ex svc h k st ≠ OutOfFuel
  ∧ (∀ e st',
       ToolUse.cell_in ex svc h k st = Raised e st' →
       (ex = ToolUse.Ex1 ∧ fetch_paragraphs h ToolUse.url = Raise e ∧ st' = st)
       ∨ (∃ paragraphs,
            (ex = ToolUse.Ex1 → fetch_paragraphs h ToolUse.url = Ok paragraphs)
            ∧ messages_create svc (requests st)
                (ToolUse.request_of ex paragraphs) = Raise e
            ∧ st' = sent (MessagesCall (ToolUse.request_of ex paragraphs)
                            (Raise e)) st)
       ∨ (ex = ToolUse.Ex5 ∧ ToolUse.classification_bound k = false
          ∧ e = NameError "json_classification"
          ∧ ∃ response,
              messages_create svc (requests st) ToolUse.request5 = Ok response
              ∧ truthy (from_option VDict VNone
                          (first_selected "print_all_characteristics"
                             (content response))) = true
              ∧ st' = emit (Print "Characteristics (JSON):")
                        (sent (MessagesCall ToolUse.request5 (Ok response)) st)))
  ∧ (∀ k' st',
       ToolUse.cell_in ex svc h k st = Done k' st' →
       ∃ paragraphs response tool,
         (ex = ToolUse.Ex1 → fetch_paragraphs h ToolUse.url = Ok paragraphs)
         ∧ messages_create svc (requests st)
             (ToolUse.request_of ex paragraphs) = Ok response
         ∧ req_model (ToolUse.request_of ex paragraphs)
           = "claude-3-haiku-20240307"
         ∧ req_max_tokens (ToolUse.request_of ex paragraphs) = 4096
         ∧ req_tools (ToolUse.request_of ex paragraphs) = [tool]
         ∧ getitem tool "name" = Ok (VStr (ToolUse.tool_name_of ex))
         ∧ (req_tool_choice (ToolUse.request_of ex paragraphs) ≠ None
            ↔ ex = ToolUse.Ex5)
         ∧ ToolUse.handle_of ex h response (ToolUse.vars k)
             (sent (MessagesCall (ToolUse.request_of ex paragraphs)
                      (Ok response)) st)
           = Done (ToolUse.vars k') st'
         ∧ ToolUse.classification_bound k'
           = match ex with
             | ToolUse.Ex4 => true
             | _ => ToolUse.classification_bound k
             end
         ∧ (ex = ToolUse.Ex5 → ToolUse.classification_bound k = false →
            truthy (from_option VDict VNone
                      (first_selected "print_all_characteristics"
                         (content response))) = false)
         ∧ requests st' = S (requests st)
         ∧ questions (log st')
           = questions (log st)
             ++ [AskMessages (ToolUse.request_of ex paragraphs)])
  ∧ ((ex = ToolUse.Ex1 → is_ok (fetch_paragraphs h ToolUse.url) = true) →
     (∀ req, is_ok (messages_create svc (requests st) req) = true) →
     (ex = ToolUse.Ex5 → ToolUse.classification_bound k = true) →
     ∃ k' st', ToolUse.cell_in ex svc h k st = Done k' st')
  ∧ (∀ response,
       ex = ToolUse.Ex5 → ToolUse.classification_bound k = false →
       messages_create svc (requests st) ToolUse.request5 = Ok response →
       truthy (from_option VDict VNone
                 (first_selected "print_all_characteristics"
                    (content response))) = true →
       ToolUse.cell_in ex svc h k st
       = Raised (NameError "json_classification")
           (emit (Print "Characteristics (JSON):")
              (sent (MessagesCall ToolUse.request5 (Ok response)) st))).
Proof.
  unfold ToolUse.cell_in.
  destruct (match ex with
            | ToolUse.Ex1 => fetch_paragraphs h ToolUse.url
            | _ => Ok []
            end) as [paragraphs|e0] eqn:Hfetch.
  2:{ assert (Hex : ex = ToolUse.Ex1) by (by destruct ex). subst ex.
      split; [done|]. split; [intros e st' [= <- <-]; by left|].
      split; [done|]. split; [|done].
      intros Hf. specialize (Hf eq_refl). by rewrite Hfetch in Hf. }
  assert (Hps : ex = ToolUse.Ex1 →
                fetch_paragraphs h ToolUse.url = Ok paragraphs)
    by (by intros ->).
  assert (Hreq5 : ex = ToolUse.Ex5 →
                  ToolUse.request_of ex paragraphs = ToolUse.request5)
    by (by intros ->).
  destruct (request_of_shape ex paragraphs)
    as (tool & Hm & Ht & Htools & Hname & Hchoice).
  unfold ToolUse.create.
  destruct (messages_create svc (requests st) (ToolUse.request_of ex paragraphs))
    as [response|e] eqn:Hreq.
  - destruct (handle_in_outcome ex h response k
                (sent (MessagesCall (ToolUse.request_of ex paragraphs)
                         (Ok response)) st))
      as [(Hex & Hb & Htruthy & Hrun)|(k1 & st1 & Hrun & Hof & Hbound & Hfalsy)];
      rewrite Hrun.
    + split; [done|]. split.
      { intros e st' [= <- <-]. right. right.
        rewrite (Hreq5 Hex) in *. eauto 10. }
      split; [done|]. split.
      { intros _ _ Hbound. specialize (Hbound Hex). congruence. }
      intros response' _ _ Hreq' _. rewrite (Hreq5 Hex) in *. congruence.
    + split; [done|]. split; [done|]. split.
      { intros k' st' [= <- <-]. exists paragraphs, response, tool.
        destruct (handle_of_keeps_count _ _ _ _ _ _ _ Hof) as [Hr Hq].
        split; [done|]. split; [done|]. split; [done|]. split; [done|].
        split; [done|]. split; [done|]. split; [done|]. split; [done|].
        split; [done|]. split; [done|]. split; [by rewrite Hr|].
        rewrite Hq. simpl. by rewrite questions_app. }
      split; [eauto|].
      intros response' Hex Hb Hreq' Htruthy. rewrite (Hreq5 Hex) in *.
      assert (response' = response) as -> by congruence.
      specialize (Hfalsy Hex Hb). congruence.
  - split; [done|]. split; [intros e' st' [= <- <-]; right; left; eauto|].
    split; [done|]. split.
    + intros _ Hok _. specialize (Hok (ToolUse.request_of ex paragraphs)).
      by rewrite Hreq in Hok.
    + intros response Hex _ Hreq' _. rewrite (Hreq5 Hex) in *. congruence.
Qed.

Lemma cell_outcome_witness :
  (∃ k' st', ToolUse.cell_in ToolUse.Ex5 steady sample_host
               {| ToolUse.vars := ToolUse.nothing_found;
                  ToolUse.classification_bound := true |} initial
             = Done k' st')
  ∧ ToolUse.cell_in ToolUse.Ex5 chatty sample_host ToolUse.new_kernel initial
    = Raised (NameError "json_classification")
        (emit (Print "Characteristics (JSON):")
           (sent (MessagesCall ToolUse.request5
                    (Ok {| content :=
                             [ToolUseBlock "toolu_1" "print_classification"
                                [("categories", VList [])];
                              ToolUseBlock "toolu_2" "print_all_characteristics"
                                [("height", VStr "tall")]] |})) initial)).
Proof.
  split.
  - apply (cell_outcome ToolUse.Ex5 steady sample_host
             {| ToolUse.vars := ToolUse.nothing_found;
                ToolUse.classification_bound := true |} initial);
      [discriminate | reflexivity | reflexivity].
  - apply (cell_outcome ToolUse.Ex5 chatty sample_host ToolUse.new_kernel
             initial); reflexivity.
Defined.

(** A new kernel: the fourth cell, then the last, prints the classification;
    the last cell alone fails on the unbound name. *)
Example new_kernel_sample :
  is_raised (ToolUse.cell_in ToolUse.Ex5 chatty sample_host ToolUse.new_kernel
               initial) = true
  ∧ match ToolUse.cell_in ToolUse.Ex4 chatty sample_host ToolUse.new_kernel
            initial with
    | Done k4 st4 =>
        is_done (ToolUse.cell_in ToolUse.Ex5 chatty sample_host k4 st4) = true
    | _ => False
    end.
Proof. split; reflexivity. Qed.

(** X11. Run after the fourth cell, the last cell prints what the fourth
    cell extracted: whenever its own result is non-empty, the line under
    "Characteristics (JSON):" is the dump of the input of the first
    print_classification block of the fourth cell's answer (None when there
    was none), and the characteristics it has just extracted are not
    printed. *)
Theorem last_cell_prints_fourth_result (svc : services) (h : host)
    (nb nb4 nb5 : ToolUse.notebook) (st st4 st5 : state) :
  ToolUse.cell4 svc h nb st = Done nb4 st4 →
  ToolUse.cell5 svc h nb4 st4 = Done nb5 st5 →
  truthy (ToolUse.tool_output nb5) = true →
  ∃ req4 response4,
    messages_create svc (requests st) req4 = Ok response4
    ∧ ToolUse.json_classification nb5
      = from_option VDict VNone
          (first_selected "print_classification" (content response4))
    ∧ ∃ before,
        log st5
        = before
          ++ [Print "Characteristics (JSON):";
              Print (json_dumps h
                       (from_option VDict VNone
                          (first_selected "print_classification"
                             (content response4))) 2)].
Proof.
  intros H4 H5 Htruthy.
  unfold ToolUse.cell4 in H4. cbv zeta in H4.
  change ToolUse.handle4 with (ToolUse.handle_of ToolUse.Ex4) in H4.
  rewrite ask_outcome in H4.
  destruct (messages_create svc (requests st) _) as [response4|e] eqn:Hreq4;
    [|done].
  simpl in H4. unfold ToolUse.handle4 in H4. rewrite extract_first in H4.
  simpl in H4.
  assert (Hnb4 : ToolUse.json_classification nb4
                 = from_option VDict VNone
                     (first_selected "print_classification" (content response4))).
  { destruct (truthy _) in H4; by injection H4 as <- _. }
  unfold ToolUse.cell5 in H5. cbv zeta in H5.
  change ToolUse.handle5 with (ToolUse.handle_of ToolUse.Ex5) in H5.
  rewrite ask_outcome in H5.
  destruct (messages_create svc (requests st4) _) as [response5|e] eqn:Hreq5;
    [|done].
  simpl in H5. unfold ToolUse.handle5 in H5. rewrite extract_first in H5.
  simpl in H5.
  destruct (truthy (from_option VDict VNone
              (first_selected "print_all_characteristics" (content response5))))
    eqn:Ht.
  - injection H5 as <- <-. eexists _, response4. split; [exact Hreq4|].
    simpl. split; [exact Hnb4|]. rewrite Hnb4.
    match goal with
    | |- ∃ before, (?l ++ [?a]) ++ [?b] = _ => exists l
    end. by rewrite <- app_assoc.
  - injection H5 as <- <-. simpl in Htruthy. by rewrite Ht in Htruthy.
Qed.

Lemma last_cell_prints_fourth_result_witness :
  match ToolUse.cell4 chatty sample_host ToolUse.nothing_found initial with
  | Done nb4 st4 =>
      match ToolUse.cell5 chatty sample_host nb4 st4 with
      | Done nb5 st5 =>
          ∃ req4 response4,
            messages_create chatty (requests initial) req4 = Ok response4
            ∧ ToolUse.json_classification nb5
              = from_option VDict VNone
                  (first_selected "print_classification" (content response4))
            ∧ ∃ before,
                log st5
                = before
                  ++ [Print "Characteristics (JSON):";
                      Print (json_dumps sample_host
                               (from_option VDict VNone
                                  (first_selected "print_classification"
                                     (content response4))) 2)]
      | _ => False
      end
  | _ => False
  end.
Proof.
  destruct (ToolUse.cell4 chatty sample_host ToolUse.nothing_found initial)
    as [nb4 st4| |] eqn:H4; [|discriminate H4..].
  destruct (ToolUse.cell5 chatty sample_host nb4 st4)
    as [nb5 st5| |] eqn:H5.
  - apply (last_cell_prints_fourth_result _ _ _ _ _ _ _ _ H4 H5).
    injection H4 as <- <-. injection H5 as <- _. reflexivity.
  - injection H4 as <- <-. discriminate H5.
  - injection H4 as <- <-. discriminate H5.
Defined.

(** ** Setting up the index *)

Section index_setup.
Import IndexSetup.
Variable pc : control.

Lemma wait_ready_polls k : ∀ fuel st,
  (∀ j, j < k → describe_ready pc (sent_requests st + j) index_name = Ok false) →
  describe_ready pc (sent_requests st + k) index_name = Ok true →
  k < fuel →
  ∃ st', wait_ready fuel true pc st = CDone () st'
    ∧ sent_requests st' = sent_requests st + k + 1
    ∧ waited st' = waited st + k
    ∧ steps st' = steps st ++ concat (replicate k idle_poll)
                    ++ [DescribeIndex index_name (Ok true)].
Proof.
  induction k as [|k IH]; intros [|fuel] st Hidle Hready Hlt; try lia; simpl.
  - rewrite Nat.add_0_r in Hready. rewrite Hready. eexists. split; [done|].
    simpl. repeat split; lia.
  - pose proof (Hidle 0 ltac:(lia)) as H0. rewrite Nat.add_0_r in H0.
    rewrite H0.
    destruct (IH fuel
                {| sent_requests := S (sent_requests st);
                   waited := waited st + 1;
                   steps := (steps st ++ [DescribeIndex index_name (Ok false)])
                              ++ [TimeSleep 1] |})
      as (st' & Hrun & Hs & Hw & Hsteps); simpl.
    + intros j Hj. rewrite <- (Hidle (S j)) by lia. f_equal. lia.
    + rewrite <- Hready. f_equal. lia.
    + lia.
    + exists st'. split; [exact Hrun|]. simpl in *.
      split; [lia|]. split; [lia|]. rewrite Hsteps. by rewrite <- !app_assoc.
Qed.

Lemma wait_ready_no_cap n : ∀ st,
  (∀ j, j < n → describe_ready pc (sent_requests st + j) index_name = Ok false) →
  wait_ready n true pc st = COutOfFuel.
Proof.
  induction n as [|n IH]; intros st Hidle; [done|]. simpl.
  pose proof (Hidle 0 ltac:(lia)) as H0. rewrite Nat.add_0_r in H0. rewrite H0.
  apply IH. simpl. intros j Hj. rewrite <- (Hidle (S j)) by lia. f_equal. lia.
Qed.

End index_setup.

(** X13. As the notebook stands, the cell that sets up the index cannot
    complete: the name [time] is bound nowhere, so the first
    [time.sleep(1)] raises a NameError.  This happens after at most three
    requests and without any waiting; when the index is missing and its
    creation is accepted, the index has been created by then. *)
Theorem setup_fails_on_unbound_time (fuel : nat) (pc : IndexSetup.control)
    (st : IndexSetup.cstate) :
  (∀ n st', IndexSetup.setup fuel IndexSetup.time_bound_in_notebook pc st
            ≠ IndexSetup.CDone n st')
  ∧ (0 < fuel →
     IndexSetup.setup fuel IndexSetup.time_bound_in_notebook pc st
     ≠ IndexSetup.COutOfFuel)
  ∧ (∀ e st',
       IndexSetup.setup fuel IndexSetup.time_bound_in_notebook pc st
       = IndexSetup.CRaised e st' →
       IndexSetup.waited st' = IndexSetup.waited st
       ∧ IndexSetup.sent_requests st' ≤ IndexSetup.sent_requests st + 3)
  ∧ (∀ names,
       IndexSetup.list_indexes pc (IndexSetup.sent_requests st) = Ok names →
       IndexSetup.index_name ∈ names →
       IndexSetup.setup fuel IndexSetup.time_bound_in_notebook pc st
       = IndexSetup.CRaised (NameError "time")
           (IndexSetup.asked (IndexSetup.ListIndexes (Ok names)) st))
  ∧ (∀ names ready,
       IndexSetup.list_indexes pc (IndexSetup.sent_requests st) = Ok names →
       IndexSetup.index_name ∉ names →
       IndexSetup.create_index pc (S (IndexSetup.sent_requests st))
         IndexSetup.index_name 1024 "dotproduct" "aws" "us-west-2" = Ok () →
       IndexSetup.describe_ready pc (S (S (IndexSetup.sent_requests st)))
         IndexSetup.index_name = Ok ready →
       0 < fuel →
       ∃ st',
         IndexSetup.setup fuel IndexSetup.time_bound_in_notebook pc st
         = IndexSetup.CRaised (NameError "time") st'
         ∧ IndexSetup.CreateIndex IndexSetup.index_name 1024 "dotproduct"
             "aws" "us-west-2" (Ok ()) ∈ IndexSetup.steps st').
Proof.
  unfold IndexSetup.setup, IndexSetup.ensure_index,
    IndexSetup.time_bound_in_notebook.
  split; [|split; [|split; [|split]]].
  - intros n st'.
    destruct (IndexSetup.list_indexes pc _) as [names|e]; [|done].
    case_bool_decide; [done|]. simpl.
    destruct (IndexSetup.create_index pc _ _ _ _ _ _) as [[]|e]; [|done].
    destruct fuel as [|fuel]; [done|]. simpl.
    by destruct (IndexSetup.describe_ready pc _ _) as [[|]|e].
  - intros Hfuel.
    destruct (IndexSetup.list_indexes pc _) as [names|e]; [|done].
    case_bool_decide; [done|]. simpl.
    destruct (IndexSetup.create_index pc _ _ _ _ _ _) as [[]|e]; [|done].
    destruct fuel as [|fuel]; [lia|]. simpl.
    by destruct (IndexSetup.describe_ready pc _ _) as [[|]|e].
  - intros e st'.
    destruct (IndexSetup.list_indexes pc _) as [names|e0];
      [|intros [= <- <-]; simpl; lia].
    case_bool_decide; [intros [= <- <-]; simpl; lia|]. simpl.
    destruct (IndexSetup.create_index pc _ _ _ _ _ _) as [[]|e0];
      [|intros [= <- <-]; simpl; lia].
    destruct fuel as [|fuel]; [done|]. simpl.
    destruct (IndexSetup.describe_ready pc _ _) as [[|]|e0];
      intros [= <- <-]; simpl; lia.
  - intros names -> Hin. by rewrite bool_decide_eq_true_2.
  - intros names ready -> Hnotin Hcreate Hready Hfuel.
    rewrite bool_decide_eq_false_2 by done. simpl. rewrite Hcreate.
    destruct fuel as [|fuel]; [lia|]. simpl. rewrite Hready.
    destruct ready; eexists; (split; [reflexivity|]); simpl;
      rewrite !elem_of_app, !list_elem_of_singleton; auto.
Qed.

Lemma setup_fails_on_unbound_time_witness :
  ∃ st',
    IndexSetup.setup 1 IndexSetup.time_bound_in_notebook slow_control
      IndexSetup.start
    = IndexSetup.CRaised (NameError "time") st'
    ∧ IndexSetup.CreateIndex IndexSetup.index_name 1024 "dotproduct"
        "aws" "us-west-2" (Ok ()) ∈ IndexSetup.steps st'.
Proof.
  apply (setup_fails_on_unbound_time 1 slow_control IndexSetup.start)
    with (names := ["other-index"]) (ready := false);
    [reflexivity | | reflexivity | reflexivity | lia].
  intros Hin. apply list_elem_of_singleton in Hin. discriminate Hin.
Defined.

(** X14. With [time] bound, the cell creates the index only when its name
    is not listed, and never otherwise.  For a listed index it waits one
    second and asks for the statistics.  For a missing one it polls after
    the creation once per second until the index is ready, then waits one
    more second: after [k] unready polls it has waited [k+1] seconds; while
    the index stays unready the polling goes on without a bound. *)
Theorem setup_with_time (fuel : nat) (pc : IndexSetup.control)
    (st : IndexSetup.cstate) (names : list string) :
  IndexSetup.list_indexes pc (IndexSetup.sent_requests st) = Ok names →
  (IndexSetup.index_name ∈ names →
   ∃ st', cstate_of (IndexSetup.setup fuel true pc st) = Some st'
     ∧ IndexSetup.waited st' = IndexSetup.waited st + 1
     ∧ IndexSetup.steps st'
       = IndexSetup.steps st
         ++ [IndexSetup.ListIndexes (Ok names); IndexSetup.TimeSleep 1;
             IndexSetup.DescribeStats IndexSetup.index_name
               (IndexSetup.describe_index_stats pc
                  (S (IndexSetup.sent_requests st)) IndexSetup.index_name)])
  ∧ (IndexSetup.index_name ∉ names →
     ∀ e,
       IndexSetup.create_index pc (S (IndexSetup.sent_requests st))
         IndexSetup.index_name 1024 "dotproduct" "aws" "us-west-2" = Raise e →
       IndexSetup.setup fuel true pc st
       = IndexSetup.CRaised e
           (IndexSetup.asked
              (IndexSetup.CreateIndex IndexSetup.index_name 1024 "dotproduct"
                 "aws" "us-west-2" (Raise e))
              (IndexSetup.asked (IndexSetup.ListIndexes (Ok names)) st)))
  ∧ (IndexSetup.index_name ∉ names →
     IndexSetup.create_index pc (S (IndexSetup.sent_requests st))
       IndexSetup.index_name 1024 "dotproduct" "aws" "us-west-2" = Ok () →
     ∀ k,
       (∀ j, j < k →
          IndexSetup.describe_ready pc (IndexSetup.sent_requests st + 2 + j)
            IndexSetup.index_name = Ok false) →
       (k = fuel → IndexSetup.setup fuel true pc st = IndexSetup.COutOfFuel)
       ∧ (IndexSetup.describe_ready pc (IndexSetup.sent_requests st + 2 + k)
            IndexSetup.index_name = Ok true →
          k < fuel →
          ∃ st', cstate_of (IndexSetup.setup fuel true pc st) = Some st'
            ∧ IndexSetup.waited st' = IndexSetup.waited st + k + 1
            ∧ IndexSetup.steps st'
              = IndexSetup.steps st
                ++ [IndexSetup.ListIndexes (Ok names);
                    IndexSetup.CreateIndex IndexSetup.index_name 1024
                      "dotproduct" "aws" "us-west-2" (Ok ())]
                ++ concat (replicate k idle_poll)
                ++ [IndexSetup.DescribeIndex IndexSetup.index_name (Ok true);
                    IndexSetup.TimeSleep 1;
                    IndexSetup.DescribeStats IndexSetup.index_name
                      (IndexSetup.describe_index_stats pc
                         (IndexSetup.sent_requests st + k + 3)
                         IndexSetup.index_name)])).
Proof.
  intros Hlist. unfold IndexSetup.setup, IndexSetup.ensure_index.
  rewrite Hlist. split; [|split].
  - intros Hin. rewrite bool_decide_eq_true_2 by done. simpl.
    destruct (IndexSetup.describe_index_stats pc _ _) as [n|e];
      eexists; (split; [reflexivity|]); simpl;
      (split; [done|]); by rewrite <- !app_assoc.
  - intros Hnotin e Hcreate. rewrite bool_decide_eq_false_2 by done.
    simpl. by rewrite Hcreate.
  - intros Hnotin Hcreate k Hidle. rewrite bool_decide_eq_false_2 by done.
    simpl. rewrite Hcreate. split.
    + intros <-. rewrite wait_ready_no_cap; [done|]. simpl.
      intros j Hj. rewrite <- (Hidle j Hj). f_equal. lia.
    + intros Hready Hlt.
      destruct (wait_ready_polls pc k fuel
                  (IndexSetup.asked
                     (IndexSetup.CreateIndex IndexSetup.index_name 1024
                        "dotproduct" "aws" "us-west-2" (Ok ()))
                     (IndexSetup.asked (IndexSetup.ListIndexes (Ok names)) st)))
        as (st1 & Hrun & Hs & Hw & Hsteps); simpl.
      * intros j Hj. rewrite <- (Hidle j Hj). f_equal. lia.
      * rewrite <- Hready. f_equal. lia.
      * done.
      * rewrite Hrun. simpl in *. rewrite Hs.
        replace (S (S (IndexSetup.sent_requests st + k + 1)))
          with (IndexSetup.sent_requests st + k + 3) by lia.
        destruct (IndexSetup.describe_index_stats pc _ _) as [n|e];
          eexists; (split; [reflexivity|]); simpl; rewrite Hw, Hsteps;
          (split; [lia|]); by rewrite <- !app_assoc.
Qed.

Lemma setup_with_time_witness :
  ∃ st', cstate_of (IndexSetup.setup 3 true slow_control IndexSetup.start)
         = Some st'
    ∧ IndexSetup.waited st' = IndexSetup.waited IndexSetup.start + 2 + 1
    ∧ IndexSetup.steps st'
      = IndexSetup.steps IndexSetup.start
        ++ [IndexSetup.ListIndexes (Ok ["other-index"]);
            IndexSetup.CreateIndex IndexSetup.index_name 1024
              "dotproduct" "aws" "us-west-2" (Ok ())]
        ++ concat (replicate 2 idle_poll)
        ++ [IndexSetup.DescribeIndex IndexSetup.index_name (Ok true);
            IndexSetup.TimeSleep 1;
            IndexSetup.DescribeStats IndexSetup.index_name
              (IndexSetup.describe_index_stats slow_control
                 (IndexSetup.sent_requests IndexSetup.start + 2 + 3)
                 IndexSetup.index_name)].
Proof.
  pose proof (setup_with_time 3 slow_control IndexSetup.start ["other-index"]
                eq_refl) as (_ & _ & Hmissing).
  apply Hmissing; try reflexivity; try lia.
  - intros Hin. apply list_elem_of_singleton in Hin. discriminate Hin.
  - intros [|[|j]] Hj; [reflexivity | reflexivity | lia].
Defined.

(** * Handlers and the dataset cell *)






Example load_dataset_sample :
  Rag.load_dataset 3 sample_dataset initial
  = Done (VList [VDict [("text", VStr "a kite")]], 1) (emit (Print "...") initial).
Proof. reflexivity. Qed.

(** One line that extends the list gives four entries. *)
Example load_dataset_extending :
  Rag.load_dataset 2 extending_dataset initial
  = Done (VList [VNum 1; VNum 2; VNum 3; VNone], 4) (emit (Print "...") initial).
Proof. reflexivity. Qed.





